(** * Music bot session handler (main.py): a shallow embedding

    The handlers of [main.py] ([play], [button_callback], [download_audio],
    [handle_message], [search_youtube]) are embedded as programs of a small
    state-and-exception monad.  The state is the list of calls made to the
    outside world (chat platform, yt-dlp, file system, logger) together with
    the set of files on disk; an oracle decides which outside calls raise and
    what yt-dlp returns.

    Python [str] values are modelled as their UTF-8 bytes.  Every pattern the
    handlers search for (["download_"], [".mp3"], ["."], ["/"], [" "]) is
    ASCII, and an ASCII byte never occurs inside a multi-byte UTF-8 sequence,
    so prefix tests, replacement and splitting agree with Python's.  The
    white space of [str.split()] is recognised character by character, the
    multi-byte ones by their UTF-8 bytes. *)

From Stdlib Require Import String Ascii ZArith List Lia DecimalString.
From stdpp Require Import base option gmap strings.
Import ListNotations.
Local Open Scope string_scope.
Local Open Scope Z_scope.

(** ** Python string primitives used by the handlers *)

Module PyStr.

(** [s.startswith(p)] *)
Definition startswith (s p : string) : bool := String.prefix p s.

(** [old in s]: some suffix of [s] starts with [old]. *)
Fixpoint occurs (old s : string) : bool :=
  String.prefix old s
  || match s with
     | EmptyString => false
     | String _ s' => occurs old s'
     end.

(** [s.replace("", new)]: [new] before every character and at the end. *)
Fixpoint intersperse (new s : string) : string :=
  match s with
  | EmptyString => new
  | String c s' => new +:+ String c (intersperse new s')
  end.

(** Left-to-right scan of [str.replace] for a non-empty [old]: [skip] is
    the number of characters of the current match still to be dropped. *)
Fixpoint replace_scan (old new : string) (skip : nat) (s : string) : string :=
  match s with
  | EmptyString => EmptyString
  | String c s' =>
      match skip with
      | S k => replace_scan old new k s'
      | O =>
          if String.prefix old s
          then new +:+ replace_scan old new (Nat.pred (String.length old)) s'
          else String c (replace_scan old new O s')
      end
  end.

(** [s.replace(old, new)]: every non-overlapping occurrence, leftmost first. *)
Definition replace (s old new : string) : string :=
  match old with
  | EmptyString => intersperse new s
  | _ => replace_scan old new O s
  end.

(** The part of [s] before its last [sep], if [sep] occurs. *)
Fixpoint before_last (sep : ascii) (s : string) : option string :=
  match s with
  | EmptyString => None
  | String c s' =>
      match before_last sep s' with
      | Some p => Some (String c p)
      | None => if Ascii.eqb c sep then Some EmptyString else None
      end
  end.

(** [s.rsplit(sep, 1)[0]] for a one-character [sep]. *)
Definition rsplit1_head (s : string) (sep : ascii) : string :=
  default s (before_last sep s).

(** The part of [s] after its last [sep], if [sep] occurs. *)
Fixpoint after_last (sep : ascii) (s : string) : option string :=
  match s with
  | EmptyString => None
  | String c s' =>
      match after_last sep s' with
      | Some t => Some t
      | None => if Ascii.eqb c sep then Some s' else None
      end
  end.

(** [os.path.basename(p)] (posixpath): [p[p.rfind('/') + 1:]]. *)
Definition basename (p : string) : string := default p (after_last "/" p).

(** [sep.join(parts)] *)
Definition join (sep : string) (parts : list string) : string :=
  String.concat sep parts.

(** The one-byte white space of [str.isspace]: TAB..CR, FS..US and space. *)
Definition isspace (c : ascii) : bool :=
  let n := nat_of_ascii c in
  ((9 <=? n) && (n <=? 13) || (28 <=? n) && (n <=? 32))%nat.

(** [c] is the byte [n]. *)
Definition is_byte (c : ascii) (n : nat) : bool := Nat.eqb (nat_of_ascii c) n.

(** The number of bytes of the white-space character [s] starts with, 0
    when it starts with none.  The characters are those of [str.isspace]:
    the one-byte ones, U+0085 and U+00A0 (C2 85, C2 A0), U+1680 (E1 9A 80),
    U+2000..U+200A, U+2028, U+2029 and U+202F (E2 80 80..8A, A8, A9, AF),
    U+205F (E2 81 9F) and U+3000 (E3 80 80). *)
Definition space_len (s : string) : nat :=
  match s with
  | EmptyString => 0
  | String c s1 =>
      if isspace c then 1
      else if is_byte c 194 then
        match s1 with
        | String d _ => if is_byte d 133 || is_byte d 160 then 2 else 0
        | _ => 0
        end
      else if is_byte c 225 then
        match s1 with
        | String d (String e _) =>
            if is_byte d 154 && is_byte e 128 then 3 else 0
        | _ => 0
        end
      else if is_byte c 226 then
        match s1 with
        | String d (String e _) =>
            if is_byte d 128
               && ((128 <=? nat_of_ascii e) && (nat_of_ascii e <=? 138)
                   || is_byte e 168 || is_byte e 169 || is_byte e 175)%nat
            then 3
            else if is_byte d 129 && is_byte e 159 then 3 else 0
        | _ => 0
        end
      else if is_byte c 227 then
        match s1 with
        | String d (String e _) =>
            if is_byte d 128 && is_byte e 128 then 3 else 0
        | _ => 0
        end
      else 0
  end.

(** [skip] bytes of a white-space character are still to be passed; then
    the rest is white space only. *)
Fixpoint blank_from (skip : nat) (s : string) : bool :=
  match s with
  | EmptyString => true
  | String _ s' =>
      match skip with
      | S k => blank_from k s'
      | O =>
          match space_len s with
          | O => false
          | S k => blank_from k s'
          end
      end
  end.

(** A string of white space only (the empty string included). *)
Definition blank (s : string) : bool := blank_from O s.

(** [s.split()]: the maximal runs of [s] without white space; [cur] is the
    run being read, [skip] the number of bytes of the current white-space
    character still to be passed. *)
Fixpoint split_from (skip : nat) (cur s : string) : list string :=
  match s with
  | EmptyString => match cur with EmptyString => [] | _ => [cur] end
  | String c s' =>
      match skip with
      | S k => split_from k cur s'
      | O =>
          match space_len s with
          | O => split_from O (cur +:+ String c EmptyString) s'
          | S k =>
              match cur with
              | EmptyString => split_from k EmptyString s'
              | _ => cur :: split_from k EmptyString s'
              end
          end
      end
  end.

Definition split (s : string) : list string := split_from O EmptyString s.

(** [str(n)] for an [int]. *)
Definition str (n : Z) : string := NilZero.string_of_int (Z.to_int n).

Fixpoint zeros (k : nat) : string :=
  match k with
  | O => EmptyString
  | S k' => String "0" (zeros k')
  end.

(** [format(n, "0<width>d")]: sign first, then zeros up to [width]
    characters in all, then the digits. *)
Definition format_0d (width : nat) (n : Z) : string :=
  if n <? 0
  then let digits := str (- n) in
       "-" +:+ zeros (Nat.pred width - String.length digits) +:+ digits
  else let digits := str n in
       zeros (width - String.length digits) +:+ digits.

(** The line feed of ["\n"]. *)
Definition nl : string := String (ascii_of_nat 10) EmptyString.

End PyStr.

(** ** The outside world *)

(** An exception of class [Exception]; [exn_str] is what [f"{e}"] shows. *)
Inductive exn : Type := Exception (exn_str : string).

Definition exn_str (e : exn) : string := match e with Exception s => s end.

(** [InlineKeyboardButton(text, callback_data=...)] *)
Record InlineKeyboardButton : Type :=
  { button_text : string; callback_data : string }.

(** [InlineKeyboardMarkup]: rows of buttons. *)
Definition InlineKeyboardMarkup : Type := list (list InlineKeyboardButton).

(** The options a [yt_dlp.YoutubeDL] object is built with. *)
Inductive ydl_opts : Type :=
| QUIET_OPTIONS   (* {'quiet': True, 'no_warnings': True} *)
| YDL_OPTIONS.    (* bestaudio, mp3 at 192, 'downloads/%(title)s.%(ext)s' *)

(** The calls a handler makes to the outside, in the order it makes them.
    (The chat id given to [send_audio] is the same through a run and is
    left out.) *)
Inductive Event : Type :=
| QueryAnswer                                   (* query.answer() *)
| QueryEditMessageText (text : string)          (* query.edit_message_text *)
| MessageReplyText (text : string) (reply_markup : option InlineKeyboardMarkup)
| MessageDelete                                 (* searching_msg.delete() *)
| MessageEditText (text : string)               (* searching_msg.edit_text *)
| YdlNew (opts : ydl_opts)                      (* yt_dlp.YoutubeDL(opts) *)
| YdlExtractInfo (target : string) (download : bool)
| YdlExit                                       (* leaving [with ... as ydl] *)
| OsMakedirs (path : string)
| FileOpen (path : string)                      (* open(path, 'rb') *)
| BotSendAudio (audio title performer : string) (* context.bot.send_audio *)
| FileClose (path : string)
| OsRemove (path : string)
| LoggerError (msg : string).

(** A value found under ['duration']: an [int], a [float] (whatever its
    value) or [None]. *)
Inductive duration_value : Type :=
| PyInt (n : Z)
| PyFloat
| PyNone.

(** One entry of a yt-dlp search: a dict whose keys may be missing. *)
Record Entry : Type :=
  { entry_title : option string;
    entry_duration : option duration_value;
    entry_webpage_url : option string;
    entry_thumbnail : option string }.

(** The oracle for everything the handlers do not decide themselves. *)
Record Env : Type :=
  { (** whether a call raises, given the calls made before it *)
    fails : list Event -> Event -> option exn;
    (** the ['entries'] of [extract_info(target, download=False)] *)
    search_entries : string -> list Entry;
    (** the files on disk once [extract_info(url, download=True)] has run,
        whether it returned or raised *)
    extract_files : string -> gset string -> gset string;
    (** [ydl.prepare_filename(info)] for the info of [url] *)
    prepare_filename : string -> string }.

Record World : Type :=
  { trace : list Event;        (* calls made so far, oldest first *)
    files : gset string }.     (* paths that exist *)

Inductive result (A : Type) : Type :=
| Ok (a : A)
| Raise (e : exn).
Arguments Ok {A} a.
Arguments Raise {A} e.

(** ** The handler monad: state passing with exceptions *)

Definition M (A : Type) : Type := World -> World * result A.

Definition ret {A} (a : A) : M A := fun w => (w, Ok a).

Definition raise {A} (e : exn) : M A := fun w => (w, Raise e).

Definition bind {A B} (m : M A) (k : A -> M B) : M B :=
  fun w =>
    match m w with
    | (w', Ok a) => k a w'
    | (w', Raise e) => (w', Raise e)
    end.

Notation "x <- m ;; k" := (bind m (fun x => k))
  (at level 100, m at next level, right associativity).
Notation "m ;; k" := (bind m (fun _ => k))
  (at level 100, right associativity).

(** [try: body / except Exception as e: handler(e)] *)
Definition try_except {A} (body : M A) (handler : exn -> M A) : M A :=
  fun w =>
    match body w with
    | (w', Ok a) => (w', Ok a)
    | (w', Raise e) => handler e w'
    end.

(** [try: body / finally: final]: [final] runs on both exits; when it
    raises, its exception replaces the pending one. *)
Definition try_finally {A} (body : M A) (final : M unit) : M A :=
  fun w =>
    match body w with
    | (w', r) =>
        match final w' with
        | (w'', Ok _) => (w'', r)
        | (w'', Raise e) => (w'', Raise e)
        end
    end.

(** [with enter as x: body]: the exit call runs when [enter] returned. *)
Definition with_ {A} (enter : M unit) (exit : M unit) (body : M A) : M A :=
  enter ;; try_finally body exit.

Definition record (ev : Event) (w : World) : World :=
  {| trace := trace w ++ [ev]; files := files w |}.

(** [update.message] when there is one; [message_text] is its [text],
    [None] for a message without text. *)
Record Message : Type := { message_text : option string }.

(** The exception of [None.attr]. *)
Definition attribute_error (attr : string) : exn :=
  Exception ("'NoneType' object has no attribute '" +:+ attr +:+ "'").

(** The dict [search_youtube] returns. *)
Record SearchResult : Type :=
  { title : string;
    duration : duration_value;
    url : string;
    thumbnail : string }.

(** ** Message texts and payloads of the handlers *)

Definition play_prompt : string :=
  "Please provide a song name!" +:+ PyStr.nl
  +:+ "Example: /play never gonna give you up".

Definition searching_text (query : string) : string :=
  "🔍 Searching for: " +:+ query.

Definition no_results_text : string :=
  "❌ No results found. Try another search!".

(** Lines 112-114 of [play]: [f"{minutes}:{seconds:02d}"]. *)
Definition duration_str (duration : Z) : string :=
  let minutes := duration / 60 in
  let seconds := duration mod 60 in
  PyStr.str minutes +:+ ":" +:+ PyStr.format_0d 2 seconds.

(** Lines 112-114 on the value of [result['duration']]: [//] and [%]
    raise a [TypeError] on [None]; they accept a [float], on which the
    ['02d'] format then raises a [ValueError]. *)
Definition type_error_none : exn :=
  Exception "unsupported operand type(s) for //: 'NoneType' and 'int'".

Definition value_error_float : exn :=
  Exception "Unknown format code 'd' for object of type 'float'".

Definition format_duration (duration : duration_value) : M string :=
  match duration with
  | PyInt n => ret (duration_str n)
  | PyFloat => raise value_error_float
  | PyNone => raise type_error_none
  end.

(** The text of lines 119-121, for a title and a formatted duration. *)
Definition found_text (title duration_str : string) : string :=
  "🎵 Found: " +:+ title +:+ PyStr.nl
  +:+ "⏱️ Duration: " +:+ duration_str +:+ PyStr.nl +:+ PyStr.nl
  +:+ "Click below to download:".

(** [callback_data=f"download_{result['url']}"] *)
Definition download_payload (url : string) : string := "download_" +:+ url.

Definition keyboard (r : SearchResult) : InlineKeyboardMarkup :=
  [ [ {| button_text := "🎵 Download & Send";
         callback_data := download_payload (url r) |} ];
    [ {| button_text := "❌ Cancel"; callback_data := "cancel" |} ] ].

(** [url = query.data.replace("download_", "")] *)
Definition payload_url (data : string) : string :=
  PyStr.replace data "download_" "".

(** [title=os.path.basename(audio_file).replace('.mp3', '')] *)
Definition audio_title (audio_file : string) : string :=
  PyStr.replace (PyStr.basename audio_file) ".mp3" "".

Definition performer : string := "Music Bot".

Definition cancelled_text : string := "❌ Operation cancelled.".
Definition downloading_text : string := "⬇️ Downloading audio... Please wait.".
Definition sent_text : string := "✅ Audio sent successfully!".
Definition failed_text : string :=
  "❌ Failed to download audio. Please try again.".
Definition error_text : string := "❌ An error occurred while downloading.".

(** Python truthiness of an [Optional[str]]: [None] and [""] are false. *)
Definition truthy (o : option string) : bool :=
  match o with
  | Some (String _ _) => true
  | _ => false
  end.

Section Handlers.

Variable env : Env.

(** An outside call that changes no file: it is recorded, then returns
    or raises as the oracle says. *)
Definition call (ev : Event) : M unit :=
  fun w =>
    match fails env (trace w) ev with
    | Some e => (record ev w, Raise e)
    | None => (record ev w, Ok tt)
    end.

(** [logger.error(msg)]: the logging module never raises into its caller. *)
Definition logger_error (msg : string) : M unit :=
  fun w => (record (LoggerError msg) w, Ok tt).

(** [os.path.exists(path)] *)
Definition path_exists (path : string) : M bool :=
  fun w => (w, Ok (bool_decide (path ∈ files w))).

(** [open(path, 'rb')]: raises when there is no such file. *)
Definition file_open (path : string) : M unit :=
  fun w =>
    if bool_decide (path ∈ files w)
    then call (FileOpen path) w
    else (record (FileOpen path) w,
          Raise (Exception "[Errno 2] No such file or directory")).

(** [os.remove(path)]: raises when there is no such file, or when the
    oracle says so; otherwise the file is gone. *)
Definition os_remove (path : string) : M unit :=
  fun w =>
    if bool_decide (path ∈ files w)
    then match fails env (trace w) (OsRemove path) with
         | Some e => (record (OsRemove path) w, Raise e)
         | None =>
             ({| trace := trace w ++ [OsRemove path];
                 files := files w ∖ {[ path ]} |}, Ok tt)
         end
    else (record (OsRemove path) w,
          Raise (Exception "[Errno 2] No such file or directory")).

(** [ydl.extract_info(f"ytsearch:...", download=False)['entries']] *)
Definition ydl_search (target : string) : M (list Entry) :=
  call (YdlExtractInfo target false) ;; ret (search_entries env target).

(** [info = ydl.extract_info(url, download=True)] followed by
    [ydl.prepare_filename(info)]: files appear on disk even when the
    extraction raises half-way. *)
Definition ydl_download (url : string) : M string :=
  fun w =>
    let w' := {| trace := trace w ++ [YdlExtractInfo url true];
                 files := extract_files env url (files w) |} in
    match fails env (trace w) (YdlExtractInfo url true) with
    | Some e => (w', Raise e)
    | None => (w', Ok (prepare_filename env url))
    end.

(** [d[key]] on a dict that may lack [key] *)
Definition getitem {A} (key : string) (v : option A) : M A :=
  match v with
  | Some a => ret a
  | None => raise (Exception ("'" +:+ key +:+ "'"))
  end.

(** [entries[0]] *)
Definition first_entry (entries : list Entry) : M Entry :=
  match entries with
  | info :: _ => ret info
  | [] => raise (Exception "list index out of range")
  end.

(** ** The handlers *)

(** [search_youtube]: the YoutubeDL object is built outside the [try]. *)
Definition search_youtube (query : string) : M (option SearchResult) :=
  call (YdlNew QUIET_OPTIONS) ;;
  try_except
    (entries <- ydl_search ("ytsearch:" +:+ query) ;;
     info <- first_entry entries ;;
     t <- getitem "title" (entry_title info) ;;
     u <- getitem "webpage_url" (entry_webpage_url info) ;;
     ret (Some {| title := t;
                  duration := default (PyInt 0) (entry_duration info);
                  url := u;
                  thumbnail := default "" (entry_thumbnail info) |}))
    (fun e => logger_error ("Search error: " +:+ exn_str e) ;; ret None).

(** [play], on [context.args]. *)
Definition play (args : list string) : M unit :=
  let query :=
    match args with
    | [] => None
    | _ => Some (PyStr.join " " args)
    end in
  if negb (truthy query)
  then call (MessageReplyText play_prompt None)
  else
    let query := default "" query in
    call (MessageReplyText (searching_text query) None) ;;
    result <- search_youtube query ;;
    match result with
    | Some r =>
        duration_str <- format_duration (duration r) ;;
        call MessageDelete ;;
        call (MessageReplyText (found_text (title r) duration_str)
                (Some (keyboard r)))
    | None => call (MessageEditText no_results_text)
    end.

(** The body of the [try] of [download_audio]. *)
Definition download_audio_try (url : string) : M (option string) :=
  with_ (call (YdlNew YDL_OPTIONS)) (call YdlExit)
    (filename <- ydl_download url ;;
     let filename := PyStr.rsplit1_head filename "." +:+ ".mp3" in
     found <- path_exists filename ;;
     if found then ret (Some filename) else ret None).

(** [download_audio]: [os.makedirs] comes before the [try]. *)
Definition download_audio (url : string) : M (option string) :=
  call (OsMakedirs "downloads") ;;
  try_except
    (download_audio_try url)
    (fun e => logger_error ("Download error: " +:+ exn_str e) ;; ret None).

(** The body of the [try] of [button_callback] (lines 144-161). *)
Definition button_callback_try (url : string) : M unit :=
  audio_file <- download_audio url ;;
  if truthy audio_file
  then
    let audio_file := default "" audio_file in
    with_ (file_open audio_file) (call (FileClose audio_file))
      (call (BotSendAudio audio_file (audio_title audio_file) performer)) ;;
    os_remove audio_file ;;
    call (QueryEditMessageText sent_text)
  else call (QueryEditMessageText failed_text).

(** The [except Exception as e] of [button_callback] (lines 163-165). *)
Definition button_callback_except (e : exn) : M unit :=
  logger_error ("Download error: " +:+ exn_str e) ;;
  call (QueryEditMessageText error_text).

(** [button_callback], on [query.data]. *)
Definition button_callback (data : string) : M unit :=
  call QueryAnswer ;;
  if String.eqb data "cancel"
  then call (QueryEditMessageText cancelled_text)
  else if PyStr.startswith data "download_"
  then
    let url := payload_url data in
    call (QueryEditMessageText downloading_text) ;;
    try_except (button_callback_try url) button_callback_except
  else ret tt.

(** [handle_message], on [update.message.text] ([None] when the message
    carries no text): [context.args = [text]], then [play]. *)
Definition handle_message (text : option string) : M unit :=
  if truthy text && negb (PyStr.startswith (default "" text) "/")
  then play [default "" text]
  else ret tt.

(** ** Updates without a message

    The handlers are registered for every kind of update (lines 207, 213,
    220): for an edited message or a channel post [update.message] is
    [None], and reading an attribute of it raises an [AttributeError].
    [play] and [handle_message] above are the handlers on an update that
    carries a message; the two definitions below are the handlers on any
    update. *)

(** [play] on any update: both branches of line 90 start with
    [update.message.reply_text], before any call is made. *)
Definition play_update (message : option Message) (args : list string)
  : M unit :=
  match message with
  | Some _ => play args
  | None => raise (attribute_error "reply_text")
  end.

(** [handle_message] on any update: line 189 starts with
    [update.message.text]. *)
Definition handle_message_update (message : option Message) : M unit :=
  match message with
  | Some m => handle_message (message_text m)
  | None => raise (attribute_error "text")
  end.

(** ** The dispatcher's side of [/play]

    [CommandHandler("play", play)] is python-telegram-bot's: it calls
    [play] with [context.args = update.message.text.split()[1:]]. *)
Definition command_args (text : string) : list string :=
  tail (PyStr.split text).

Definition on_command_play (text : string) : M unit :=
  play (command_args text).

End Handlers.

(** ** Sample worlds and oracles *)

Definition empty_world : World := {| trace := []; files := ∅ |}.

Definition believer : Entry :=
  {| entry_title := Some "Believer";
     entry_duration := Some (PyInt 204);
     entry_webpage_url := Some "https://youtu.be/x";
     entry_thumbnail := None |}.

(** Nothing raises; every download leaves [downloads/Believer.mp3]. *)
Definition env_ok : Env :=
  {| fails := fun _ _ => None;
     search_entries := fun _ => [believer];
     extract_files := fun _ fs => {[ "downloads/Believer.mp3" ]} ∪ fs;
     prepare_filename := fun _ => "downloads/Believer.webm" |}.

(** As [env_ok], but sending the audio times out. *)
Definition env_send_fails : Env :=
  {| fails := fun _ ev =>
       match ev with
       | BotSendAudio _ _ _ => Some (Exception "Timed out")
       | _ => None
       end;
     search_entries := search_entries env_ok;
     extract_files := extract_files env_ok;
     prepare_filename := prepare_filename env_ok |}.

(** As [env_ok], but acknowledging the button press fails. *)
Definition env_answer_fails : Env :=
  {| fails := fun _ ev =>
       match ev with
       | QueryAnswer => Some (Exception "Query is too old")
       | _ => None
       end;
     search_entries := search_entries env_ok;
     extract_files := extract_files env_ok;
     prepare_filename := prepare_filename env_ok |}.

(** The download fetches [downloads/song.webm]; the conversion to mp3 then
    raises, so the mp3 is never written. *)
Definition env_convert_fails : Env :=
  {| fails := fun _ ev =>
       match ev with
       | YdlExtractInfo _ true => Some (Exception "ffprobe and ffmpeg not found")
       | _ => None
       end;
     search_entries := search_entries env_ok;
     extract_files := fun _ fs => {[ "downloads/song.webm" ]} ∪ fs;
     prepare_filename := fun _ => "downloads/song.webm" |}.

(** A video whose title has [.mp3] in it. *)
Definition env_mp3_title : Env :=
  {| fails := fun _ _ => None;
     search_entries := search_entries env_ok;
     extract_files := fun _ fs => {[ "downloads/Top 10 .mp3 players.mp3" ]} ∪ fs;
     prepare_filename := fun _ => "downloads/Top 10 .mp3 players.webm" |}.

(** ** Which calls belong to which collaborator *)

(** Calls made by [search_youtube]. *)
Definition search_call (ev : Event) : bool :=
  match ev with
  | YdlNew QUIET_OPTIONS | YdlExtractInfo _ false => true
  | _ => false
  end.

(** Calls made by [download_audio]. *)
Definition download_call (ev : Event) : bool :=
  match ev with
  | OsMakedirs _ | YdlNew YDL_OPTIONS | YdlExtractInfo _ true | YdlExit => true
  | _ => false
  end.

(** [os.remove] calls. *)
Definition remove_call (ev : Event) : bool :=
  match ev with
  | OsRemove _ => true
  | _ => false
  end.



(** ** Which calls a program can add to the trace *)

(** Every call [m] adds to the trace satisfies [P]. *)
Definition emits {A} (P : Event -> Prop) (m : M A) : Prop :=
  forall w w' r, m w = (w', r) ->
    exists evs, trace w' = (trace w ++ evs)%list /\ Forall P evs.

(** What [send_audio] must be given: the title and performer of lines
    153-154. *)
Definition audio_metadata (ev : Event) : Prop :=
  match ev with
  | BotSendAudio audio t p => t = audio_title audio /\ p = "Music Bot"
  | _ => True
  end.

(** ** Further notions used by the properties of the handlers *)

(** Nothing raises; the search has no entry. *)
Definition env_no_match : Env :=
  {| fails := fun _ _ => None;
     search_entries := fun _ => [];
     extract_files := fun _ fs => fs;
     prepare_filename := fun _ => "" |}.

(** Nothing raises; the first entry has ['duration': None]. *)
Definition env_none_duration : Env :=
  {| fails := fun _ _ => None;
     search_entries := fun _ =>
       [ {| entry_title := Some "Believer";
            entry_duration := Some PyNone;
            entry_webpage_url := Some "https://youtu.be/x";
            entry_thumbnail := None |} ];
     extract_files := fun _ fs => fs;
     prepare_filename := fun _ => "" |}.

(** yt-dlp prepared a name without any dot. *)
Definition env_no_extension : Env :=
  {| fails := fun _ _ => None;
     search_entries := search_entries env_ok;
     extract_files := fun _ fs => {[ "downloads/song.mp3" ]} ∪ fs;
     prepare_filename := fun _ => "downloads/song" |}.

(** The [YoutubeDL] constructor raises. *)
Definition env_no_ydl : Env :=
  {| fails := fun _ ev =>
       match ev with
       | YdlNew _ => Some (Exception "no yt-dlp")
       | _ => None
       end;
     search_entries := search_entries env_ok;
     extract_files := extract_files env_ok;
     prepare_filename := prepare_filename env_ok |}.

(** ** Start-up: the bot token (lines 27-29)

    [BOT_TOKEN = os.environ.get('BOT_TOKEN')], then
    [if not BOT_TOKEN: raise ValueError(...)]. *)
Definition load_bot_token (environ : gmap string string) : result string :=
  let BOT_TOKEN := environ !! "BOT_TOKEN" in
  if negb (truthy BOT_TOKEN)
  then Raise (Exception "No BOT_TOKEN found in environment variables")
  else Ok (default "" BOT_TOKEN).

(** The mp3 path [download_audio] looks for (line 177). *)
Definition staged_path (env : Env) (url : string) : string :=
  PyStr.rsplit1_head (prepare_filename env url) "." +:+ ".mp3".

(** [m] leaves the files as they are. *)
Definition keeps_files {A} (m : M A) : Prop :=
  forall w w' r, m w = (w', r) -> files w' = files w.

(** Calls on the pressed button's query: [answer], [edit_message_text]. *)
Definition query_call (ev : Event) : bool :=
  match ev with
  | QueryAnswer | QueryEditMessageText _ => true
  | _ => false
  end.

(** Calls on the user's message and on the searching notice. *)
Definition message_call (ev : Event) : bool :=
  match ev with
  | MessageReplyText _ _ | MessageDelete | MessageEditText _ => true
  | _ => false
  end.

(** The calls [play] can make for the query [q]. *)
Definition play_call (q : string) (ev : Event) : Prop :=
  match ev with
  | MessageReplyText _ _ | MessageDelete | LoggerError _ => True
  | MessageEditText t => t = no_results_text
  | YdlNew opts => opts = QUIET_OPTIONS
  | YdlExtractInfo target download =>
      target = "ytsearch:" +:+ q /\ download = false
  | _ => False
  end.

(** The calls on files that name [path], with the title and performer of
    lines 153-154 when the call is [send_audio]; calls on no file pass. *)
Definition staged_file_call (path : string) (ev : Event) : Prop :=
  match ev with
  | FileOpen p | FileClose p | OsRemove p => p = path
  | BotSendAudio audio t p =>
      audio = path /\ t = audio_title path /\ p = "Music Bot"
  | _ => True
  end.

(** The calls [download_audio] can make for [url]. *)
Definition download_audio_call (url : string) (ev : Event) : Prop :=
  match ev with
  | OsMakedirs path => path = "downloads"
  | YdlNew opts => opts = YDL_OPTIONS
  | YdlExtractInfo target download => target = url /\ download = true
  | YdlExit | LoggerError _ => True
  | _ => False
  end.

(** ** Facts about the string primitives *)

Lemma replace_scan_absent old new s :
  PyStr.occurs old s = false -> PyStr.replace_scan old new O s = s.
Proof.
  induction s as [|c s IH]; intros Hocc; [reflexivity|].
  cbn [PyStr.occurs] in Hocc. apply orb_false_iff in Hocc as [Hpre Hrest].
  cbn [PyStr.replace_scan]. rewrite Hpre, (IH Hrest). reflexivity.
Qed.

(** Decoding a payload applies [replace] to the URL itself. *)
Lemma payload_url_download_payload u :
  payload_url (download_payload u) = PyStr.replace u "download_" "".
Proof. destruct u; reflexivity. Qed.

(** The payload round-trips for a URL in which [download_] does not occur. *)
Lemma payload_round_trip_absent u :
  PyStr.occurs "download_" u = false -> payload_url (download_payload u) = u.
Proof.
  intros H. rewrite payload_url_download_payload.
  apply (replace_scan_absent "download_" "" u H).
Qed.

Lemma split_from_blank skip cur s :
  PyStr.blank_from skip s = true ->
  PyStr.split_from skip cur s
  = match cur with EmptyString => [] | _ => [cur] end.
Proof.
  revert skip cur. induction s as [|c s IH]; intros skip cur Hb;
    [reflexivity|].
  cbn [PyStr.blank_from] in Hb. cbn [PyStr.split_from].
  destruct skip as [|k]; [|exact (IH k cur Hb)].
  destruct (PyStr.space_len (String c s)) as [|k]; [discriminate Hb|].
  rewrite (IH k EmptyString Hb). destruct cur; reflexivity.
Qed.


Lemma prefix_cons a s1 b s2 :
  String.prefix (String a s1) (String b s2)
  = if ascii_dec a b then String.prefix s1 s2 else false.
Proof. reflexivity. Qed.

Lemma prefix_nil s : String.prefix "" s = true.
Proof. destruct s; reflexivity. Qed.

Lemma append_cons c s t : String c s +:+ t = String c (s +:+ t).
Proof. reflexivity. Qed.

Lemma append_nil t : "" +:+ t = t.
Proof. reflexivity. Qed.

Lemma prefix_mp3_app t :
  t <> "" -> String.prefix ".mp3" t = false ->
  String.prefix ".mp3" (t +:+ ".mp3") = false.
Proof.
  intros Hne H.
  destruct t as [|c1 [|c2 [|c3 [|c4 t]]]]; [congruence|..];
    rewrite ?append_cons, ?append_nil, ?prefix_cons, ?prefix_nil in *;
    repeat match goal with
      | |- context [ascii_dec ?a ?b] => destruct (ascii_dec a b); subst
      | H : context [ascii_dec ?a ?b] |- _ => destruct (ascii_dec a b); subst
      end; try congruence; try reflexivity.
Qed.

(** Removing [.mp3] gives the stem back when the stem has no [.mp3]. *)
Lemma replace_mp3_suffix stem :
  PyStr.occurs ".mp3" stem = false ->
  PyStr.replace (stem +:+ ".mp3") ".mp3" "" = stem.
Proof.
  unfold PyStr.replace.
  induction stem as [|c s IH]; intros Hocc; [reflexivity|].
  cbn [PyStr.occurs] in Hocc. apply orb_false_iff in Hocc as [Hpre Hrest].
  rewrite append_cons. cbn [PyStr.replace_scan]. rewrite <- append_cons.
  rewrite (prefix_mp3_app (String c s)); [|discriminate|exact Hpre].
  rewrite (IH Hrest). reflexivity.
Qed.

Lemma after_last_app_none sep d t :
  PyStr.after_last sep t = None ->
  PyStr.after_last sep (d +:+ String sep t) = Some t.
Proof.
  intros Ht. induction d as [|c d IH];
    rewrite ?append_cons, ?append_nil; cbn [PyStr.after_last].
  - rewrite Ht, Ascii.eqb_refl. reflexivity.
  - rewrite IH. reflexivity.
Qed.

(** For a staged path [dir/stem.mp3] whose stem has neither [/] nor
    [.mp3], the title is the stem. *)
Lemma audio_title_plain_stem dir stem :
  PyStr.after_last "/" (stem +:+ ".mp3") = None ->
  PyStr.occurs ".mp3" stem = false ->
  audio_title (dir +:+ "/" +:+ stem +:+ ".mp3") = stem.
Proof.
  intros Hslash Hocc. unfold audio_title, PyStr.basename.
  change (dir +:+ "/" +:+ stem +:+ ".mp3")
    with (dir +:+ String "/" (stem +:+ ".mp3")).
  rewrite (after_last_app_none _ _ _ Hslash). cbn [default from_option id].
  apply replace_mp3_suffix, Hocc.
Qed.

(** ** Stepping the monad *)

Lemma call_ok env ev w :
  fails env (trace w) ev = None -> call env ev w = (record ev w, Ok tt).
Proof. intros H. unfold call. rewrite H. reflexivity. Qed.

Lemma call_raise env ev w e :
  fails env (trace w) ev = Some e -> call env ev w = (record ev w, Raise e).
Proof. intros H. unfold call. rewrite H. reflexivity. Qed.

Lemma call_world env ev w : fst (call env ev w) = record ev w.
Proof. unfold call. destruct (fails env (trace w) ev); reflexivity. Qed.

Ltac case_fails :=
  match goal with
  | |- context [fails ?e ?h ?ev] => destruct (fails e h ev) eqn:?
  end.

Section Emits.

Variable env : Env.
Variable P : Event -> Prop.

Lemma emits_ret {A} (a : A) : emits P (ret a).
Proof.
  intros w w' r [= <- <-]. exists []. rewrite app_nil_r. auto.
Qed.

Lemma emits_raise {A} (e : exn) : emits P (@raise A e).
Proof.
  intros w w' r [= <- <-]. exists []. rewrite app_nil_r. auto.
Qed.

Lemma emits_record {A} ev fs (r0 : result A) w w' r :
  P ev ->
  ({| trace := trace w ++ [ev]; files := fs |}, r0) = (w', r) ->
  exists evs, trace w' = (trace w ++ evs)%list /\ Forall P evs.
Proof. intros HP [= <- <-]. exists [ev]. auto. Qed.

Lemma emits_seq {A B} (m : M A) (k : M B) w w1 w' (r : result B) :
  emits P m -> emits P k ->
  (exists r1, m w = (w1, r1)) -> k w1 = (w', r) ->
  exists evs, trace w' = (trace w ++ evs)%list /\ Forall P evs.
Proof.
  intros Hm Hk [r1 H1] H2.
  destruct (Hm _ _ _ H1) as (evs1 & E1 & F1).
  destruct (Hk _ _ _ H2) as (evs2 & E2 & F2).
  exists (evs1 ++ evs2)%list. rewrite E2, E1, app_assoc.
  split; [reflexivity | apply Forall_app; auto].
Qed.

Lemma emits_bind {A B} (m : M A) (k : A -> M B) :
  emits P m -> (forall a, emits P (k a)) -> emits P (bind m k).
Proof.
  intros Hm Hk w w' r H. unfold bind in H.
  destruct (m w) as [w1 [a|e]] eqn:E.
  - eapply (emits_seq m (k a)); eauto.
  - injection H as <- <-. eapply Hm; eauto.
Qed.

Lemma emits_try_except {A} (body : M A) (handler : exn -> M A) :
  emits P body -> (forall e, emits P (handler e)) ->
  emits P (try_except body handler).
Proof.
  intros Hm Hk w w' r H. unfold try_except in H.
  destruct (body w) as [w1 [a|e]] eqn:E.
  - injection H as <- <-. eapply Hm; eauto.
  - eapply (emits_seq body (handler e)); eauto.
Qed.

Lemma emits_try_finally {A} (body : M A) (final : M unit) :
  emits P body -> emits P final -> emits P (try_finally body final).
Proof.
  intros Hm Hk w w' r H. unfold try_finally in H.
  destruct (body w) as [w1 r1] eqn:E.
  destruct (final w1) as [w2 [u|e]] eqn:E2; injection H as <- <-;
    eapply (emits_seq body final); eauto.
Qed.

Lemma emits_with {A} (enter exit : M unit) (body : M A) :
  emits P enter -> emits P exit -> emits P body ->
  emits P (with_ enter exit body).
Proof.
  intros. apply emits_bind; [assumption|].
  intros _. apply emits_try_finally; assumption.
Qed.

Lemma emits_call ev : P ev -> emits P (call env ev).
Proof.
  intros HP w w' r H. unfold call, record in H.
  destruct (fails env (trace w) ev); eapply emits_record; eauto.
Qed.

Lemma emits_logger_error msg :
  P (LoggerError msg) -> emits P (logger_error msg).
Proof. intros HP w w' r H. eapply emits_record; eauto. Qed.

Lemma emits_path_exists path : emits P (path_exists path).
Proof.
  intros w w' r [= <- <-]. exists []. rewrite app_nil_r. auto.
Qed.

Lemma emits_ydl_download url :
  P (YdlExtractInfo url true) -> emits P (ydl_download env url).
Proof.
  intros HP w w' r H. unfold ydl_download in H.
  destruct (fails env (trace w) (YdlExtractInfo url true));
    eapply emits_record; eauto.
Qed.

Lemma emits_file_open path :
  P (FileOpen path) -> emits P (file_open env path).
Proof.
  intros HP w w' r H. unfold file_open, call, record in H.
  case_bool_decide; [destruct (fails env (trace w) (FileOpen path))|];
    eapply emits_record; eauto.
Qed.

Lemma emits_os_remove path :
  P (OsRemove path) -> emits P (os_remove env path).
Proof.
  intros HP w w' r H. unfold os_remove, record in H.
  case_bool_decide; [destruct (fails env (trace w) (OsRemove path))|];
    eapply emits_record; eauto.
Qed.

End Emits.

Ltac emits_step :=
  match goal with
  | |- emits _ (bind _ _) => apply emits_bind
  | |- emits _ (try_except _ _) => apply emits_try_except
  | |- emits _ (try_finally _ _) => apply emits_try_finally
  | |- emits _ (with_ _ _ _) => apply emits_with
  | |- emits _ (call _ _) => apply emits_call
  | |- emits _ (logger_error _) => apply emits_logger_error
  | |- emits _ (ydl_download _ _) => apply emits_ydl_download
  | |- emits _ (file_open _ _) => apply emits_file_open
  | |- emits _ (os_remove _ _) => apply emits_os_remove
  | |- emits _ (path_exists _) => apply emits_path_exists
  | |- emits _ (ret _) => apply emits_ret
  | |- emits _ (raise _) => apply emits_raise
  | |- emits _ (if ?b then _ else _) => destruct b
  | |- forall _, _ => intro
  | |- _ = _ => reflexivity
  | |- audio_metadata _ => cbn; auto
  end.

(** [download_audio] never calls [os.remove]. *)
Lemma download_audio_no_remove env url :
  emits (fun ev => remove_call ev = false) (download_audio env url).
Proof. unfold download_audio, download_audio_try. repeat emits_step. Qed.

(** Whatever happens, an audio is only ever sent with the title computed
    from its path and the performer ["Music Bot"]. *)
Lemma button_callback_audio_metadata env data :
  emits audio_metadata (button_callback env data).
Proof.
  unfold button_callback, button_callback_try, button_callback_except,
    download_audio, download_audio_try.
  repeat emits_step.
Qed.

(** A path returned by [download_audio] is the expected mp3 path, on disk. *)
Lemma download_audio_returns_existing env url w w1 f :
  download_audio env url w = (w1, Ok (Some f)) ->
  f = PyStr.rsplit1_head (prepare_filename env url) "." +:+ ".mp3"
  /\ f ∈ files w1.
Proof.
  unfold download_audio, try_except, download_audio_try, with_, bind, call,
    try_finally, ydl_download, path_exists, logger_error, ret.
  cbn [record trace files].
  repeat (first [case_fails | case_bool_decide]; cbn [trace files]);
    intros [= <- <-]; split; first [reflexivity | assumption].
Qed.

Lemma mp3_path_truthy s : truthy (Some (s +:+ ".mp3")) = true.
Proof. destruct s; reflexivity. Qed.

(** X19, for every oracle: once the download has staged [f] and the file
    is open, a [send_audio] that raises ends the [try] body with the file
    closed, not removed, and still on disk. *)
Lemma send_failure_keeps_file env url w w1 f e :
  download_audio env url w = (w1, Ok (Some f)) ->
  fails env (trace w1) (FileOpen f) = None ->
  fails env (trace w1 ++ [FileOpen f])
    (BotSendAudio f (audio_title f) performer) = Some e ->
  exists e',
    button_callback_try env url w
    = ({| trace := trace w1 ++ [FileOpen f;
                                BotSendAudio f (audio_title f) performer;
                                FileClose f];
          files := files w1 |}, Raise e')
    /\ f ∈ files w1.
Proof.
  intros Hdl Hopen Hsend.
  destruct (download_audio_returns_existing _ _ _ _ _ Hdl) as [Hf Hin].
  assert (Ht : truthy (Some f) = true) by (rewrite Hf; apply mp3_path_truthy).
  unfold button_callback_try, bind. rewrite Hdl, Ht.
  cbn [default from_option id].
  unfold with_, bind, file_open. rewrite (bool_decide_eq_true_2 _ Hin).
  rewrite (call_ok _ _ _ Hopen). unfold try_finally.
  rewrite (call_raise env _ (record (FileOpen f) w1) e Hsend).
  unfold call, record. cbn [trace files]. rewrite <- !app_assoc.
  case_fails; eexists; (split; [reflexivity | exact Hin]).
Qed.

(** ** Facts about [play] and the dispatcher's arguments *)

(** [play] only looks at the joined arguments. *)
Lemma play_args_join env args : play env args = play env [PyStr.join " " args].
Proof. destruct args as [|a l]; reflexivity. Qed.

Lemma play_empty_query env args w :
  PyStr.join " " args = "" ->
  play env args w = call env (MessageReplyText play_prompt None) w.
Proof. intros H. rewrite play_args_join, H. reflexivity. Qed.

(** [/play] followed by nothing but whitespace has no arguments. *)
Lemma command_args_blank rest :
  PyStr.blank rest = true -> command_args ("/play" +:+ rest) = [].
Proof.
  intros H.
  change (command_args ("/play" +:+ rest))
    with (tail (PyStr.split_from O "/play" rest)).
  rewrite (split_from_blank O _ _ H). reflexivity.
Qed.

(** The dispatcher splits on every white-space character: here a
    no-break space (U+00A0) and an ideographic space (U+3000). *)
Example command_args_no_break_space :
  command_args "/play a b　c" = ["a"; "b"; "c"]
  /\ command_args "/play believer" = ["believer"]
  /\ PyStr.blank "  　" = true.
Proof. repeat split; reflexivity. Qed.

(** The arguments of [/play <text>] are the words of [text]. *)
Lemma command_args_play text :
  command_args ("/play " +:+ text) = PyStr.split text.
Proof. reflexivity. Qed.

Lemma handle_message_forwards env text :
  text <> "" -> PyStr.startswith text "/" = false ->
  handle_message env (Some text) = play env [text].
Proof.
  intros Hne Hs. destruct text as [|c t]; [congruence|].
  change (handle_message env (Some (String c t)))
    with (if negb (PyStr.startswith (String c t) "/")
          then play env [String c t] else ret tt).
  rewrite Hs. reflexivity.
Qed.

(** A payload that starts with [download_] is not the [cancel] payload. *)
Lemma download_data_not_cancel data :
  PyStr.startswith data "download_" = true -> String.eqb data "cancel" = false.
Proof.
  intros H. destruct (String.eqb_spec data "cancel") as [-> | _];
    [discriminate H | reflexivity].
Qed.

(** A message with empty text, or with no text, is dropped silently. *)
Lemma handle_message_empty env w :
  handle_message env (Some "") w = (w, Ok tt)
  /\ handle_message env None w = (w, Ok tt).
Proof. split; reflexivity. Qed.

(** ** The download-and-send path of [button_callback] *)

(** When nothing raises, the staged file is sent, removed, and the status
    message ends as the success notice. *)
Example button_callback_sends_and_removes :
  button_callback env_ok (download_payload "https://youtu.be/x") empty_world
  = ({| trace :=
          [ QueryAnswer;
            QueryEditMessageText downloading_text;
            OsMakedirs "downloads";
            YdlNew YDL_OPTIONS;
            YdlExtractInfo "https://youtu.be/x" true;
            YdlExit;
            FileOpen "downloads/Believer.mp3";
            BotSendAudio "downloads/Believer.mp3" "Believer" "Music Bot";
            FileClose "downloads/Believer.mp3";
            OsRemove "downloads/Believer.mp3";
            QueryEditMessageText sent_text ];
        files := ∅ |}, Ok tt).
Proof. vm_compute. reflexivity. Qed.

(** C1, at the failing input: the download stages
    [downloads/Believer.mp3], the file is opened and [send_audio] raises.
    The exception leaves the [try] body before [os.remove] is reached: the
    run makes no [os.remove] call at all, the staged file is still on disk
    when the handler returns, and the handler itself returns normally after
    showing the generic error. *)
Theorem staged_file_survives_failed_send :
  let run := button_callback env_send_fails
               (download_payload "https://youtu.be/x") empty_world in
  In (BotSendAudio "downloads/Believer.mp3" "Believer" "Music Bot")
     (trace (fst run))
  /\ forallb (fun ev => negb (remove_call ev)) (trace (fst run)) = true
  /\ files (fst run) = {[ "downloads/Believer.mp3" ]}
  /\ snd run = Ok tt.
Proof.
  cbv zeta. split; [vm_compute; tauto|].
  repeat split; vm_compute; reflexivity.
Qed.

(** C2, at the failing input: a canonical watch URL whose video id starts
    with [download_].  The payload built by [play] is decoded by
    [button_callback] with [replace], which also deletes the [download_]
    inside the URL: the handler downloads another URL than the one the
    button was made for. *)
Theorem download_payload_round_trip_fails :
  let u := "https://www.youtube.com/watch?v=download_ab" in
  let run := button_callback env_ok (download_payload u) empty_world in
  payload_url (download_payload u) = "https://www.youtube.com/watch?v=ab"
  /\ payload_url (download_payload u) <> u
  /\ In (YdlExtractInfo "https://www.youtube.com/watch?v=ab" true)
        (trace (fst run))
  /\ ~ In (YdlExtractInfo u true) (trace (fst run)).
Proof.
  cbv zeta. split; [reflexivity|]. split; [discriminate|]. split.
  - vm_compute. tauto.
  - vm_compute. intuition discriminate.
Qed.

(** ** Empty and blank queries *)

(** C3, counterexample: the plain message [" "] is blank, yet
    [handle_message] forwards it to [play], which searches for it and
    never shows the prompt. *)
Lemma blank_message_is_searched :
  let run := handle_message env_ok (Some " ") empty_world in
  PyStr.blank " " = true
  /\ In (YdlExtractInfo "ytsearch: " false) (trace (fst run))
  /\ existsb search_call (trace (fst run)) = true
  /\ ~ In (MessageReplyText play_prompt None) (trace (fst run)).
Proof.
  cbv zeta. split; [reflexivity|]. split; [vm_compute; tauto|].
  split; [vm_compute; reflexivity|].
  vm_compute. intuition discriminate.
Qed.

(** C3, amended: when the joined query is the empty string, and in
    particular when [/play] is followed by nothing but whitespace (the
    dispatcher then passes no argument), [play] makes exactly one call, the
    prompt for a song name, and so no call to the search. *)
Theorem play_prompts_on_empty_query env w args :
  PyStr.join " " args = ""
  \/ (exists rest, PyStr.blank rest = true
                   /\ args = command_args ("/play" +:+ rest)) ->
  trace (fst (play env args w))
  = (trace w ++ [MessageReplyText play_prompt None])%list
  /\ search_call (MessageReplyText play_prompt None) = false.
Proof.
  intros H. split; [|reflexivity].
  assert (Hj : PyStr.join " " args = "").
  { destruct H as [H | (rest & Hb & ->)]; [exact H|].
    rewrite (command_args_blank _ Hb). reflexivity. }
  rewrite (play_empty_query _ _ _ Hj), call_world. reflexivity.
Qed.

Lemma play_prompts_on_empty_query_witness :
  trace (fst (play env_ok (command_args "/play   ") empty_world))
  = [MessageReplyText play_prompt None].
Proof.
  apply (play_prompts_on_empty_query env_ok empty_world
           (command_args "/play   ")).
  right. exists "   ". split; reflexivity.
Defined.

(** ** The duration shown by [play] *)



Example duration_str_125 : duration_str 125 = "2:05".
Proof. reflexivity. Qed.

Example duration_str_0 : duration_str 0 = "0:00".
Proof. reflexivity. Qed.

(** A found entry without a ['duration'] key is shown with [0:00]. *)
Example play_shows_default_duration :
  let env :=
    {| fails := fun _ _ => None;
       search_entries := fun _ =>
         [ {| entry_title := Some "Believer";
              entry_duration := None;
              entry_webpage_url := Some "https://youtu.be/x";
              entry_thumbnail := None |} ];
       extract_files := fun _ fs => fs;
       prepare_filename := fun _ => "" |} in
  let r := {| title := "Believer"; duration := PyInt 0;
              url := "https://youtu.be/x"; thumbnail := "" |} in
  last (trace (fst (play env ["believer"] empty_world)))
  = Some (MessageReplyText (found_text "Believer" "0:00") (Some (keyboard r)))
  /\ found_text "Believer" "0:00"
     = "🎵 Found: Believer" +:+ PyStr.nl +:+ "⏱️ Duration: 0:00"
       +:+ PyStr.nl +:+ PyStr.nl +:+ "Click below to download:".
Proof. split; vm_compute; reflexivity. Qed.

(** ** Exceptions in [button_callback] *)




(** ** The title and performer of the sent audio *)

(** C6, at the failing input: the staged file
    [downloads/Top 10 .mp3 players.mp3] has the base name
    [Top 10 .mp3 players.mp3]; [replace('.mp3', '')] deletes both
    occurrences of [.mp3], so the title sent is [Top 10  players] and not
    the base name without its extension, [Top 10 .mp3 players].  The
    performer is ["Music Bot"]. *)
Theorem audio_title_loses_inner_extension :
  let audio_file := "downloads/Top 10 .mp3 players.mp3" in
  let run := button_callback env_mp3_title
               (download_payload "https://youtu.be/x") empty_world in
  PyStr.basename audio_file = "Top 10 .mp3 players" +:+ ".mp3"
  /\ audio_title audio_file = "Top 10  players"
  /\ audio_title audio_file <> "Top 10 .mp3 players"
  /\ In (BotSendAudio audio_file "Top 10  players" "Music Bot")
        (trace (fst run)).
Proof.
  cbv zeta. split; [reflexivity|]. split; [reflexivity|].
  split; [discriminate|]. vm_compute. tauto.
Qed.

(** ** A failed download *)

(** C7, counterexample: the download fetches [downloads/song.webm], the
    conversion raises, [download_audio] returns [None]; the handler shows
    the failure notice and returns with [downloads/song.webm] left on
    disk. *)
Lemma failed_download_leaves_partial_file :
  let w1 := record (QueryEditMessageText downloading_text)
              (record QueryAnswer empty_world) in
  let run := button_callback env_convert_fails
               (download_payload "https://youtu.be/x") empty_world in
  snd (download_audio env_convert_fails "https://youtu.be/x" w1) = Ok None
  /\ last (trace (fst run)) = Some (QueryEditMessageText failed_text)
  /\ files (fst run) = {[ "downloads/song.webm" ]}.
Proof. cbv zeta. repeat split; vm_compute; reflexivity. Qed.

(** C7, amended: when [download_audio] returns [None], the handler edits
    the status message to the failure notice and, that edit returning,
    returns with the notice as its last call; only when that edit raises
    is the exception logged and the message edited to the generic error
    text.  In both cases it makes no [os.remove] call and leaves the files
    exactly as the download left them. *)
Theorem failed_download_no_remove env data w w2 :
  PyStr.startswith data "download_" = true ->
  fails env (trace w) QueryAnswer = None ->
  fails env (trace w ++ [QueryAnswer]) (QueryEditMessageText downloading_text)
    = None ->
  download_audio env (payload_url data)
    (record (QueryEditMessageText downloading_text) (record QueryAnswer w))
    = (w2, Ok None) ->
  let w3 := record (QueryEditMessageText failed_text) w2 in
  button_callback env data w
  = match fails env (trace w2) (QueryEditMessageText failed_text) with
    | None => (w3, Ok tt)
    | Some e =>
        let w4 := record (LoggerError ("Download error: " +:+ exn_str e)) w3 in
        (record (QueryEditMessageText error_text) w4,
         match fails env (trace w4) (QueryEditMessageText error_text) with
         | Some e' => Raise e'
         | None => Ok tt
         end)
    end
  /\ files (fst (button_callback env data w)) = files w2
  /\ exists evs,
       trace (fst (button_callback env data w)) = (trace w ++ evs)%list
       /\ Forall (fun ev => remove_call ev = false) evs.
Proof.
  intros Hp Ha Hd Hdl.
  pose proof (download_data_not_cancel _ Hp) as Hc.
  destruct (download_audio_no_remove _ _ _ _ _ Hdl) as (evs & Etr & Fno).
  cbn [record trace files] in Etr. cbv zeta.
  match goal with
  | |- ?run = ?rhs /\ _ => assert (Hrun : run = rhs)
  end.
  { unfold button_callback, bind. rewrite (call_ok _ _ _ Ha), Hc, Hp.
    rewrite (call_ok env (QueryEditMessageText downloading_text)
               (record QueryAnswer w) Hd).
    unfold try_except, button_callback_try, bind. rewrite Hdl.
    cbn [truthy negb]. unfold call.
    destruct (fails env (trace w2) (QueryEditMessageText failed_text));
      [|reflexivity].
    unfold button_callback_except, bind, logger_error, call.
    case_fails; reflexivity. }
  split; [exact Hrun|]. rewrite Hrun.
  destruct (fails env (trace w2) (QueryEditMessageText failed_text)) as [e|];
    cbn [fst record trace files]; (split; [reflexivity|]);
    rewrite Etr, <- !app_assoc; eexists; (split; [reflexivity|]);
    repeat (apply Forall_app; split); auto.
Qed.

Lemma failed_download_no_remove_witness :
  button_callback env_convert_fails
    (download_payload "https://youtu.be/x") empty_world
  = ({| trace :=
          [ QueryAnswer;
            QueryEditMessageText downloading_text;
            OsMakedirs "downloads";
            YdlNew YDL_OPTIONS;
            YdlExtractInfo "https://youtu.be/x" true;
            YdlExit;
            LoggerError "Download error: ffprobe and ffmpeg not found";
            QueryEditMessageText failed_text ];
        files := {[ "downloads/song.webm" ]} |}, Ok tt).
Proof.
  refine (eq_trans
    (proj1
       (failed_download_no_remove env_convert_fails
          (download_payload "https://youtu.be/x") empty_world
          (fst (download_audio env_convert_fails "https://youtu.be/x"
                  (record (QueryEditMessageText downloading_text)
                     (record QueryAnswer empty_world))))
          _ _ _ _)) _);
    vm_compute; reflexivity.
Defined.

(** ** Cancelling *)

(** C8, counterexample: when [query.answer()] raises, a press on the
    cancel button gets no cancellation notice: the acknowledgement is the
    only call and its exception leaves the handler. *)
Lemma cancel_without_acknowledgement :
  button_callback env_answer_fails "cancel" empty_world
  = ({| trace := [QueryAnswer]; files := ∅ |},
     Raise (Exception "Query is too old"))
  /\ ~ In (QueryEditMessageText cancelled_text)
         (trace (fst (button_callback env_answer_fails "cancel"
                        empty_world))).
Proof.
  split; [vm_compute; reflexivity|].
  vm_compute. intuition discriminate.
Qed.

(** C8, amended: on the payload ["cancel"] the handler acknowledges the
    press and, the acknowledgement returning, makes exactly one more call,
    the edit of the message to the cancellation notice, and stops with the
    outcome of that edit; when the acknowledgement raises, that exception
    leaves the handler and the message is not edited.  In every case the
    run has no call of the search or of the download, and no file
    changes. *)
Theorem cancel_edits_and_stops env w :
  button_callback env "cancel" w
  = match fails env (trace w) QueryAnswer with
    | Some e => (record QueryAnswer w, Raise e)
    | None =>
        (record (QueryEditMessageText cancelled_text) (record QueryAnswer w),
         match fails env (trace w ++ [QueryAnswer])
                 (QueryEditMessageText cancelled_text) with
         | Some e => Raise e
         | None => Ok tt
         end)
    end
  /\ files (fst (button_callback env "cancel" w)) = files w
  /\ exists evs,
       trace (fst (button_callback env "cancel" w)) = (trace w ++ evs)%list
       /\ Forall (fun ev => search_call ev = false /\ download_call ev = false)
            evs
       /\ (fails env (trace w) QueryAnswer = None ->
           evs = [QueryAnswer; QueryEditMessageText cancelled_text])
       /\ (fails env (trace w) QueryAnswer <> None -> evs = [QueryAnswer]).
Proof.
  match goal with
  | |- ?run = ?rhs /\ _ => assert (Hrun : run = rhs)
  end.
  { unfold button_callback, bind, call.
    destruct (fails env (trace w) QueryAnswer) as [e|]; [reflexivity|].
    change (String.eqb "cancel" "cancel") with true. cbv iota.
    cbn [record trace]. case_fails; reflexivity. }
  split; [exact Hrun|]. rewrite Hrun.
  destruct (fails env (trace w) QueryAnswer) as [e|];
    cbn [fst record trace files]; (split; [reflexivity|]).
  - exists [QueryAnswer]. split; [reflexivity|].
    split; [repeat constructor|]. split; [discriminate | reflexivity].
  - exists [QueryAnswer; QueryEditMessageText cancelled_text].
    rewrite <- app_assoc. split; [reflexivity|].
    split; [repeat constructor|]. split; [reflexivity | congruence].
Qed.

Lemma cancel_edits_and_stops_witness :
  button_callback env_ok "cancel" empty_world
  = ({| trace := [QueryAnswer; QueryEditMessageText cancelled_text];
        files := ∅ |}, Ok tt).
Proof.
  exact (proj1 (cancel_edits_and_stops env_ok empty_world)).
Defined.

(** ** Plain messages *)

(** C9, counterexample: the plain message [a  b] (two spaces) is searched
    as it is, while [/play a  b] is searched as [a b], because the
    dispatcher splits the arguments on whitespace and [play] joins them
    with single spaces.  And a message with empty text is dropped, while
    [play] with the empty query shows the prompt. *)
Lemma plain_message_differs_from_command :
  PyStr.startswith "a  b" "/" = false
  /\ PyStr.startswith "" "/" = false
  /\ trace (fst (handle_message env_ok (Some "") empty_world)) = []
  /\ trace (fst (play env_ok [""] empty_world))
     = [MessageReplyText play_prompt None]
  /\ In (YdlExtractInfo "ytsearch:a  b" false)
        (trace (fst (handle_message env_ok (Some "a  b") empty_world)))
  /\ In (YdlExtractInfo "ytsearch:a b" false)
        (trace (fst (on_command_play env_ok "/play a  b" empty_world)))
  /\ handle_message env_ok (Some "a  b") empty_world
     <> on_command_play env_ok "/play a  b" empty_world.
Proof.
  do 4 (split; [reflexivity|]). split; [vm_compute; tauto|].
  split; [vm_compute; tauto|].
  intros H. apply (f_equal (fun run => trace (fst run))) in H.
  vm_compute in H. discriminate H.
Qed.

(** C9, amended: a non-empty text that does not start with [/] is handled
    exactly as [play] with that text as its only argument, and so exactly
    as any [/play] command whose arguments, joined with single spaces, give
    the text back. *)
Theorem plain_message_is_play env w text :
  text <> "" -> PyStr.startswith text "/" = false ->
  handle_message env (Some text) w = play env [text] w
  /\ forall cmd, PyStr.join " " (command_args cmd) = text ->
       handle_message env (Some text) w = on_command_play env cmd w.
Proof.
  intros Hne Hs. rewrite (handle_message_forwards _ _ Hne Hs).
  split; [reflexivity|]. intros cmd Hcmd.
  unfold on_command_play. rewrite (play_args_join _ (command_args cmd)), Hcmd.
  reflexivity.
Qed.

Lemma plain_message_is_play_witness :
  handle_message env_ok (Some "hello") empty_world
  = on_command_play env_ok "/play hello" empty_world.
Proof.
  apply (plain_message_is_play env_ok empty_world "hello");
    [discriminate | reflexivity | reflexivity].
Defined.

(** ** What [download_audio] returns *)

(** C10: a path returned by [download_audio] is the expected mp3 path and
    is on disk when it is returned; the function only raises what
    [os.makedirs] raised before the [try]; once the directory is made, any
    exception of the [try] body, and an expected file that is not on disk,
    give [None]. *)
Theorem download_audio_post env url w w' r :
  download_audio env url w = (w', r) ->
  (forall path, r = Ok (Some path) ->
     path = PyStr.rsplit1_head (prepare_filename env url) "." +:+ ".mp3"
     /\ path ∈ files w')
  /\ (forall e, r = Raise e ->
        fails env (trace w) (OsMakedirs "downloads") = Some e)
  /\ (forall w1 e,
        fails env (trace w) (OsMakedirs "downloads") = None ->
        download_audio_try env url (record (OsMakedirs "downloads") w)
          = (w1, Raise e) ->
        r = Ok None)
  /\ (fails env (trace w) (OsMakedirs "downloads") = None ->
      PyStr.rsplit1_head (prepare_filename env url) "." +:+ ".mp3"
        ∉ extract_files env url (files w) ->
      r = Ok None).
Proof.
  unfold download_audio, bind, call.
  destruct (fails env (trace w) (OsMakedirs "downloads")) as [e0|] eqn:Hmk.
  { intros [= <- <-]. repeat split; congruence. }
  unfold try_except, download_audio_try, with_, bind, call, try_finally,
    ydl_download, path_exists, logger_error, ret.
  cbn [record trace files].
  repeat (first [case_fails | case_bool_decide]; cbn [trace files]);
    intros [= <- <-]; cbn [files record];
    (split; [|split; [|split]];
     [ intros path Hp; inversion Hp; subst; split; first [reflexivity | assumption]
     | intros e' He'; discriminate He'
     | intros w1 e' _ Hbody; first [reflexivity | discriminate Hbody]
     | intros _ Hnot; first [reflexivity | contradiction] ]).
Qed.

Lemma download_audio_post_witness :
  "downloads/Believer.mp3"
  ∈ files (fst (download_audio env_ok "https://youtu.be/x" empty_world)).
Proof.
  refine (proj2 (proj1
    (download_audio_post env_ok "https://youtu.be/x" empty_world
       (fst (download_audio env_ok "https://youtu.be/x" empty_world))
       (Ok (Some "downloads/Believer.mp3")) _)
    "downloads/Believer.mp3" eq_refl)).
  vm_compute. reflexivity.
Defined.

(** ** Programs that leave the files alone *)

Section KeepsFiles.

Variable env : Env.

Lemma keeps_ret {A} (a : A) : keeps_files (ret a).
Proof. intros w w' r [= <- <-]. reflexivity. Qed.

Lemma keeps_bind {A B} (m : M A) (k : A -> M B) :
  keeps_files m -> (forall a, keeps_files (k a)) -> keeps_files (bind m k).
Proof.
  intros Hm Hk w w' r H. unfold bind in H.
  destruct (m w) as [w1 [a|e]] eqn:E.
  - rewrite (Hk _ _ _ _ H). eapply Hm; eauto.
  - injection H as <- <-. eapply Hm; eauto.
Qed.

Lemma keeps_raise {A} (e : exn) : keeps_files (@raise A e).
Proof. intros w w' r [= <- <-]. reflexivity. Qed.

Lemma keeps_call ev : keeps_files (call env ev).
Proof.
  intros w w' r H. unfold call in H.
  destruct (fails env (trace w) ev); injection H as <- <-; reflexivity.
Qed.

End KeepsFiles.

(** ** The runs of [search_youtube] *)

Ltac case_search :=
  match goal with
  | |- context [fails ?e ?h ?ev] => destruct (fails e h ev) eqn:?
  | |- context [search_entries ?e ?t] => destruct (search_entries e t) eqn:?
  | |- context [entry_title ?i] => destruct (entry_title i) eqn:?
  | |- context [entry_webpage_url ?i] => destruct (entry_webpage_url i) eqn:?
  end.

(** The three ways a search can go: the constructor raises; something in
    the [try] fails and is logged; the first entry gives the result. *)
Lemma search_youtube_cases env q w :
  let target := "ytsearch:" +:+ q in
  let w1 := record (YdlNew QUIET_OPTIONS) w in
  let w2 := record (YdlExtractInfo target false) w1 in
  (exists e, fails env (trace w) (YdlNew QUIET_OPTIONS) = Some e
             /\ search_youtube env q w = (w1, Raise e))
  \/ (fails env (trace w) (YdlNew QUIET_OPTIONS) = None
      /\ exists msg,
           search_youtube env q w
           = (record (LoggerError ("Search error: " +:+ msg)) w2, Ok None))
  \/ (fails env (trace w) (YdlNew QUIET_OPTIONS) = None
      /\ fails env (trace w1) (YdlExtractInfo target false) = None
      /\ exists info rest t u,
           search_entries env target = info :: rest
           /\ entry_title info = Some t
           /\ entry_webpage_url info = Some u
           /\ search_youtube env q w
              = (w2, Ok (Some {| title := t;
                                 duration := default (PyInt 0) (entry_duration info);
                                 url := u;
                                 thumbnail := default "" (entry_thumbnail info) |}))).
Proof.
  cbv zeta.
  unfold search_youtube, ydl_search, try_except, bind, call, first_entry,
    getitem, logger_error, ret, raise.
  destruct (fails env (trace w) (YdlNew QUIET_OPTIONS)) as [e|] eqn:Hnew;
    [left; eauto|right].
  repeat (case_search; cbn [trace record]);
    first [ left; split; [reflexivity|]; eexists; reflexivity
          | right; split; [reflexivity|]; split; [reflexivity|];
            do 4 eexists; split; [reflexivity|];
            split; [eassumption|]; split; [eassumption|]; reflexivity ].
Qed.

Lemma search_youtube_emits env q :
  emits (play_call q) (search_youtube env q).
Proof.
  intros w w' r H.
  destruct (search_youtube_cases env q w)
    as [(e & _ & E) | [(_ & msg & E) | (_ & _ & info & rest & t & u & _ & _ & _ & E)]];
    rewrite E in H; injection H as <- <-; cbn [record trace];
    rewrite <- ?app_assoc; eexists; (split; [reflexivity|]);
    repeat constructor.
Qed.

Lemma search_youtube_keeps env q : keeps_files (search_youtube env q).
Proof.
  intros w w' r H.
  destruct (search_youtube_cases env q w)
    as [(e & _ & E) | [(_ & msg & E) | (_ & _ & info & rest & t & u & _ & _ & _ & E)]];
    rewrite E in H; injection H as <- <-; reflexivity.
Qed.

(** X1: [search_youtube] changes no file, and the only exception that
    leaves it is the one of the [YoutubeDL] constructor, which is called
    before the [try]: once the object is built, the search returns. *)
Theorem search_youtube_raises_only_constructor env q w w' r :
  search_youtube env q w = (w', r) ->
  files w' = files w
  /\ (forall e, r = Raise e ->
        fails env (trace w) (YdlNew QUIET_OPTIONS) = Some e)
  /\ (fails env (trace w) (YdlNew QUIET_OPTIONS) = None -> exists o, r = Ok o).
Proof.
  intros H. split; [exact (search_youtube_keeps _ _ _ _ _ H)|].
  destruct (search_youtube_cases env q w)
    as [(e & He & E) | [(Hn & msg & E) | (Hn & _ & info & rest & t & u & _ & _ & _ & E)]];
    rewrite E in H; injection H as <- <-; split;
    first [ intros e' [= <-]; exact He
          | intros e' He'; discriminate He'
          | intros Hc; congruence
          | intros _; eexists; reflexivity ].
Qed.

Lemma search_youtube_raises_only_constructor_witness :
  exists o, snd (search_youtube env_ok "believer" empty_world) = Ok o.
Proof.
  apply (search_youtube_raises_only_constructor env_ok "believer" empty_world
           (fst (search_youtube env_ok "believer" empty_world)));
    reflexivity.
Defined.

(** X2: when the constructor and [extract_info] return and the first
    entry has a title and a page URL, the result is built from that first
    entry alone, with duration 0 and an empty thumbnail for missing keys;
    the other entries are never looked at. *)
Theorem search_youtube_first_entry env q w info rest t u :
  fails env (trace w) (YdlNew QUIET_OPTIONS) = None ->
  fails env (trace w ++ [YdlNew QUIET_OPTIONS])
    (YdlExtractInfo ("ytsearch:" +:+ q) false) = None ->
  search_entries env ("ytsearch:" +:+ q) = info :: rest ->
  entry_title info = Some t ->
  entry_webpage_url info = Some u ->
  search_youtube env q w
  = ({| trace := trace w ++ [YdlNew QUIET_OPTIONS;
                             YdlExtractInfo ("ytsearch:" +:+ q) false];
        files := files w |},
     Ok (Some {| title := t;
                 duration := default (PyInt 0) (entry_duration info);
                 url := u;
                 thumbnail := default "" (entry_thumbnail info) |})).
Proof.
  intros Hnew Hex Hent Ht Hu.
  unfold search_youtube, ydl_search, try_except, bind, call.
  rewrite Hnew. cbn [record trace files]. rewrite Hex, Hent.
  cbn [first_entry ret]. rewrite Ht, Hu. unfold getitem, ret, record.
  cbn [trace files]. rewrite <- ?app_assoc. reflexivity.
Qed.

Lemma search_youtube_first_entry_witness :
  snd (search_youtube env_ok "believer" empty_world)
  = Ok (Some {| title := "Believer"; duration := PyInt 204;
                url := "https://youtu.be/x"; thumbnail := "" |}).
Proof.
  rewrite (search_youtube_first_entry env_ok "believer" empty_world
             believer [] "Believer" "https://youtu.be/x");
    reflexivity.
Defined.

(** X3: once the constructor has returned, a search whose [extract_info]
    raises, or that has no entry, or whose first entry lacks the title or
    the page URL, is logged as a search error and gives [None]. *)
Theorem search_youtube_no_result env q w :
  fails env (trace w) (YdlNew QUIET_OPTIONS) = None ->
  fails env (trace w ++ [YdlNew QUIET_OPTIONS])
    (YdlExtractInfo ("ytsearch:" +:+ q) false) <> None
  \/ search_entries env ("ytsearch:" +:+ q) = []
  \/ (exists info rest,
        search_entries env ("ytsearch:" +:+ q) = info :: rest
        /\ (entry_title info = None \/ entry_webpage_url info = None)) ->
  exists msg,
    search_youtube env q w
    = ({| trace := trace w ++ [YdlNew QUIET_OPTIONS;
                               YdlExtractInfo ("ytsearch:" +:+ q) false;
                               LoggerError ("Search error: " +:+ msg)];
          files := files w |}, Ok None).
Proof.
  intros Hnew Hbad.
  destruct (search_youtube_cases env q w)
    as [(e & He & _) | [(_ & msg & E) | (_ & Hex & info & rest & t & u & Hent & Ht & Hu & _)]].
  - congruence.
  - exists msg. rewrite E. unfold record. cbn [trace files].
    rewrite <- !app_assoc. reflexivity.
  - exfalso. destruct Hbad as [H | [H | (i & l & H & Hmiss)]].
    + apply H. exact Hex.
    + congruence.
    + rewrite Hent in H. injection H as <- <-.
      destruct Hmiss; congruence.
Qed.

Lemma search_youtube_no_result_witness :
  exists msg,
    search_youtube env_no_match "asdkfjh" empty_world
    = ({| trace := [YdlNew QUIET_OPTIONS;
                    YdlExtractInfo "ytsearch:asdkfjh" false;
                    LoggerError ("Search error: " +:+ msg)];
          files := ∅ |}, Ok None).
Proof.
  refine (search_youtube_no_result env_no_match "asdkfjh" empty_world
            eq_refl _).
  right. left. reflexivity.
Defined.

(** ** The runs of [play] *)

(** [play] on a non-empty query, spelled out. *)
Lemma play_nonempty env c q' :
  let q := String c q' in
  play env [q]
  = (call env (MessageReplyText (searching_text q) None) ;;
     result <- search_youtube env q ;;
     match result with
     | Some r =>
         duration_str <- format_duration (duration r) ;;
         call env MessageDelete ;;
         call env (MessageReplyText (found_text (title r) duration_str)
                     (Some (keyboard r)))
     | None => call env (MessageEditText no_results_text)
     end).
Proof. reflexivity. Qed.

(** What [play] does once the searching notice is out. *)
Lemma play_rest_emits env q :
  emits (play_call q)
    (result <- search_youtube env q ;;
     match result with
     | Some r =>
         duration_str <- format_duration (duration r) ;;
         call env MessageDelete ;;
         call env (MessageReplyText (found_text (title r) duration_str)
                     (Some (keyboard r)))
     | None => call env (MessageEditText no_results_text)
     end).
Proof.
  apply emits_bind; [apply search_youtube_emits|]. intros [r|].
  - apply emits_bind.
    { destruct (duration r); first [apply emits_ret | apply emits_raise]. }
    intros ds. apply emits_bind; [apply emits_call; exact I|]. intros _.
    apply emits_call. exact I.
  - apply emits_call. reflexivity.
Qed.

Lemma play_emits env q : emits (play_call q) (play env [q]).
Proof.
  destruct q as [|c q'].
  - change (play env [""]) with (call env (MessageReplyText play_prompt None)).
    apply emits_call. exact I.
  - rewrite play_nonempty.
    apply emits_bind; [apply emits_call; exact I|]. intros _.
    apply play_rest_emits.
Qed.

Lemma play_keeps env q : keeps_files (play env [q]).
Proof.
  destruct q as [|c q'].
  - change (play env [""]) with (call env (MessageReplyText play_prompt None)).
    apply keeps_call.
  - rewrite play_nonempty.
    apply keeps_bind; [apply keeps_call|]. intros _.
    apply keeps_bind; [apply search_youtube_keeps|]. intros [r|].
    + apply keeps_bind.
      { destruct (duration r); first [apply keeps_ret | apply keeps_raise]. }
      intros ds. apply keeps_bind; [apply keeps_call|]. intros _.
      apply keeps_call.
    + apply keeps_call.
Qed.

(** X4: whatever the oracle does, [play] changes no file and only ever
    replies, deletes or edits its searching notice, builds the quiet
    [YoutubeDL] object, searches for ["ytsearch:"] followed by the joined
    arguments, and logs: it never starts a download, never answers a
    query, never opens, sends or removes a file. *)
Theorem play_only_searches env args w w' r :
  play env args w = (w', r) ->
  files w' = files w
  /\ exists evs,
       trace w' = (trace w ++ evs)%list
       /\ Forall (play_call (PyStr.join " " args)) evs.
Proof.
  rewrite play_args_join. intros H. split.
  - exact (play_keeps _ _ _ _ _ H).
  - exact (play_emits _ _ _ _ _ H).
Qed.

Lemma play_only_searches_witness :
  files (fst (play env_ok ["imagine"; "dragons"] empty_world)) = ∅.
Proof.
  apply (play_only_searches env_ok ["imagine"; "dragons"] empty_world
           (fst (play env_ok ["imagine"; "dragons"] empty_world))
           (snd (play env_ok ["imagine"; "dragons"] empty_world))).
  reflexivity.
Defined.

(** X5: on an update that carries a message, with a non-empty query and
    message calls that return, what [play] does after the search is
    decided by the search result alone.  No result turns the searching
    notice into the no-results text, with no buttons.  A result whose
    duration is an [int] is shown by deleting the searching notice and
    replying once with the title, the formatted duration and the two
    buttons.  A result whose duration is [None] or a [float] makes lines
    112-114 raise ([TypeError], [ValueError]): no further call is made,
    the searching notice stays and the exception leaves [play]. *)
Theorem play_shows_search_result env args w w2 o :
  PyStr.join " " args <> "" ->
  (forall h ev, message_call ev = true -> fails env h ev = None) ->
  search_youtube env (PyStr.join " " args)
    (record (MessageReplyText (searching_text (PyStr.join " " args)) None) w)
    = (w2, Ok o) ->
  play env args w
  = match o with
    | None => (record (MessageEditText no_results_text) w2, Ok tt)
    | Some r =>
        match duration r with
        | PyInt n =>
            (record (MessageReplyText (found_text (title r) (duration_str n))
                       (Some (keyboard r)))
               (record MessageDelete w2), Ok tt)
        | PyFloat => (w2, Raise value_error_float)
        | PyNone => (w2, Raise type_error_none)
        end
    end.
Proof.
  rewrite play_args_join.
  destruct (PyStr.join " " args) as [|c q']; [congruence|].
  intros _ Hchat Hsearch. rewrite play_nonempty. unfold bind.
  rewrite call_ok by (apply Hchat; reflexivity). rewrite Hsearch.
  destruct o as [r|].
  - destruct (duration r); cbn [format_duration ret raise]; try reflexivity.
    rewrite call_ok by (apply Hchat; reflexivity).
    apply call_ok, Hchat. reflexivity.
  - apply call_ok, Hchat. reflexivity.
Qed.

Lemma play_shows_search_result_witness :
  play env_none_duration ["believer"] empty_world
  = ({| trace :=
          [ MessageReplyText (searching_text "believer") None;
            YdlNew QUIET_OPTIONS;
            YdlExtractInfo "ytsearch:believer" false ];
        files := ∅ |}, Raise type_error_none).
Proof.
  refine (eq_trans
    (play_shows_search_result env_none_duration ["believer"] empty_world
       (fst (search_youtube env_none_duration "believer"
               (record (MessageReplyText (searching_text "believer") None)
                  empty_world)))
       (Some {| title := "Believer"; duration := PyNone;
                url := "https://youtu.be/x"; thumbnail := "" |}) _ _ _) _);
    [discriminate | reflexivity | reflexivity | reflexivity].
Defined.

(** On an update that carries a message, [play] always makes a first
    call, a reply. *)
Lemma play_replies_first env q w :
  exists text evs,
    trace (fst (play env [q] w))
    = (trace w ++ MessageReplyText text None :: evs)%list.
Proof.
  destruct q as [|c q'].
  - change (play env [""]) with (call env (MessageReplyText play_prompt None)).
    rewrite call_world. exists play_prompt, []. reflexivity.
  - rewrite play_nonempty. unfold bind at 1.
    exists (searching_text (String c q')).
    destruct (call env (MessageReplyText (searching_text (String c q')) None) w)
      as [w1 [[]|e]] eqn:Ecall;
      pose proof (f_equal fst Ecall) as Ew; rewrite call_world in Ew;
      cbn [fst] in Ew; subst w1.
    + match goal with
      | |- context [fst (?m ?w0)] =>
          destruct (m w0) as [w3 r3] eqn:Erest
      end.
      destruct (play_rest_emits _ _ _ _ _ Erest) as (evs & E & _).
      exists evs. cbn [fst]. rewrite E. cbn [record trace].
      rewrite <- app_assoc. reflexivity.
    + exists []. reflexivity.
Qed.

(** X6: on an update without a message, [handle_message] raises the
    [AttributeError] of line 189 without making any call.  On a message it
    makes no call, and returns, exactly when the message has no text, an
    empty text, or a text that starts with [/]; in every other case it
    makes at least one call, the first one a reply to the user. *)
Theorem handle_message_ignores env message w :
  match message with
  | None =>
      handle_message_update env message w = (w, Raise (attribute_error "text"))
  | Some m =>
      let ignored :=
        truthy (message_text m) = false
        \/ PyStr.startswith (default "" (message_text m)) "/" = true in
      (trace (fst (handle_message_update env message w)) = trace w <-> ignored)
      /\ (ignored -> handle_message_update env message w = (w, Ok tt))
      /\ (~ ignored ->
          exists text evs,
            trace (fst (handle_message_update env message w))
            = (trace w ++ MessageReplyText text None :: evs)%list)
  end.
Proof.
  destruct message as [[text]|]; [|reflexivity].
  cbn [handle_message_update message_text]. cbv zeta. unfold handle_message.
  destruct (truthy text) eqn:Ht; cbn [andb].
  - destruct (PyStr.startswith (default "" text) "/") eqn:Hs; cbn [negb].
    + split; [split; [auto | reflexivity]|].
      split; [reflexivity|]. intros H. exfalso. apply H. auto.
    + destruct (play_replies_first env (default "" text) w)
        as (t & evs & E).
      split; [split|split].
      * intros H. exfalso. rewrite E in H.
        apply (f_equal (@length Event)) in H.
        rewrite length_app in H. cbn in H. lia.
      * intros [H|H]; discriminate H.
      * intros [H|H]; discriminate H.
      * intros _. exists t, evs. exact E.
  - split; [split; [auto | reflexivity]|].
    split; [reflexivity|]. intros H. exfalso. apply H. auto.
Qed.

Lemma handle_message_ignores_witness :
  handle_message_update env_ok (Some {| message_text := Some "/start" |})
    empty_world
  = (empty_world, Ok tt).
Proof.
  apply (handle_message_ignores env_ok
           (Some {| message_text := Some "/start" |}) empty_world).
  right. reflexivity.
Defined.

(** ** From the buttons of [play] to [button_callback] *)

(** X7: every button [play] shows is one [button_callback] acts on: its
    payload is ["cancel"], or it is not ["cancel"], starts with
    ["download_"], and decodes to the result's URL with every
    ["download_"] removed.  No button falls through both tests. *)
Theorem keyboard_payloads_recognised r b :
  In b (concat (keyboard r)) ->
  callback_data b = "cancel"
  \/ (String.eqb (callback_data b) "cancel" = false
      /\ PyStr.startswith (callback_data b) "download_" = true
      /\ payload_url (callback_data b) = PyStr.replace (url r) "download_" "").
Proof.
  intros [<- | [<- | []]]; [right | left; reflexivity].
  cbn [callback_data]. split; [reflexivity|]. split.
  - unfold PyStr.startswith, download_payload.
    destruct (url r); reflexivity.
  - apply payload_url_download_payload.
Qed.

Lemma keyboard_payloads_recognised_witness :
  let r := {| title := "Believer"; duration := PyInt 204;
              url := "https://youtu.be/x"; thumbnail := "" |} in
  let b := {| button_text := "🎵 Download & Send";
              callback_data := "download_https://youtu.be/x" |} in
  callback_data b = "cancel"
  \/ (String.eqb (callback_data b) "cancel" = false
      /\ PyStr.startswith (callback_data b) "download_" = true
      /\ payload_url (callback_data b) = PyStr.replace (url r) "download_" "").
Proof.
  cbv zeta. apply keyboard_payloads_recognised. left. reflexivity.
Defined.

(** X8: a payload that is neither ["cancel"] nor starts with
    ["download_"] (the empty payload, for one) is acknowledged and then
    ignored: no edit, no download, no message to the user. *)
Theorem unknown_payload_is_ignored env data w :
  String.eqb data "cancel" = false ->
  PyStr.startswith data "download_" = false ->
  fails env (trace w) QueryAnswer = None ->
  button_callback env data w = (record QueryAnswer w, Ok tt).
Proof.
  intros Hc Hp Ha. unfold button_callback, bind.
  rewrite (call_ok _ _ _ Ha), Hc, Hp. reflexivity.
Qed.

Lemma unknown_payload_is_ignored_witness :
  button_callback env_ok "" empty_world
  = ({| trace := [QueryAnswer]; files := ∅ |}, Ok tt).
Proof.
  apply (unknown_payload_is_ignored env_ok "" empty_world); reflexivity.
Defined.

(** X9: when the calls on the query ([answer] and [edit_message_text])
    return, [button_callback] returns normally for every payload, whatever
    yt-dlp, the file system and [send_audio] do. *)
Theorem button_callback_returns env data w :
  (forall h ev, query_call ev = true -> fails env h ev = None) ->
  snd (button_callback env data w) = Ok tt.
Proof.
  intros Hq. unfold button_callback, bind.
  rewrite call_ok by (apply Hq; reflexivity).
  destruct (String.eqb data "cancel").
  { rewrite call_ok by (apply Hq; reflexivity). reflexivity. }
  destruct (PyStr.startswith data "download_"); [|reflexivity].
  rewrite call_ok by (apply Hq; reflexivity).
  unfold try_except.
  destruct (button_callback_try env (payload_url data) _) as [w2 [[]|e]];
    [reflexivity|].
  unfold button_callback_except, bind, logger_error.
  rewrite call_ok by (apply Hq; reflexivity). reflexivity.
Qed.

Lemma button_callback_returns_witness :
  snd (button_callback env_send_fails
         (download_payload "https://youtu.be/x") empty_world) = Ok tt.
Proof.
  apply (button_callback_returns env_send_fails).
  intros h [] H; first [discriminate H | reflexivity].
Defined.

(** ** The send stage of [button_callback] *)

(** X10: for every oracle, when the download staged [f] and opening,
    sending, closing, removing and the last edit all return, the [try]
    body ends normally with exactly these five calls after the download,
    and the files are those the download left, less [f]. *)
Theorem successful_send_removes_staged_file env url w w1 f :
  download_audio env url w = (w1, Ok (Some f)) ->
  (forall h ev, download_call ev = false -> fails env h ev = None) ->
  button_callback_try env url w
  = ({| trace := trace w1 ++ [FileOpen f;
                              BotSendAudio f (audio_title f) performer;
                              FileClose f;
                              OsRemove f;
                              QueryEditMessageText sent_text];
        files := files w1 ∖ {[ f ]} |}, Ok tt).
Proof.
  intros Hdl Hok.
  destruct (download_audio_returns_existing _ _ _ _ _ Hdl) as [Hf Hin].
  assert (Ht : truthy (Some f) = true) by (rewrite Hf; apply mp3_path_truthy).
  unfold button_callback_try, bind. rewrite Hdl, Ht.
  cbn [default from_option id].
  unfold with_, bind, file_open, try_finally, os_remove.
  rewrite (bool_decide_eq_true_2 _ Hin).
  rewrite !call_ok by (apply Hok; reflexivity).
  cbn [record trace files]. rewrite (bool_decide_eq_true_2 _ Hin).
  rewrite Hok by reflexivity.
  rewrite call_ok by (apply Hok; reflexivity).
  unfold record. cbn [trace files]. rewrite <- !app_assoc. reflexivity.
Qed.

Lemma successful_send_removes_staged_file_witness :
  button_callback_try env_ok "https://youtu.be/x" empty_world
  = ({| trace := [ OsMakedirs "downloads";
                   YdlNew YDL_OPTIONS;
                   YdlExtractInfo "https://youtu.be/x" true;
                   YdlExit;
                   FileOpen "downloads/Believer.mp3";
                   BotSendAudio "downloads/Believer.mp3" "Believer" "Music Bot";
                   FileClose "downloads/Believer.mp3";
                   OsRemove "downloads/Believer.mp3";
                   QueryEditMessageText sent_text ];
        files := ∅ |}, Ok tt).
Proof.
  refine (eq_trans
    (successful_send_removes_staged_file env_ok "https://youtu.be/x"
       empty_world
       (fst (download_audio env_ok "https://youtu.be/x" empty_world))
       "downloads/Believer.mp3" _ _) _);
    [vm_compute; reflexivity | reflexivity | vm_compute; reflexivity].
Defined.

(** ** What [button_callback] does to the files *)

Ltac run_cases :=
  repeat (first [ rewrite mp3_path_truthy
                | progress change (truthy None) with false
                | case_fails
                | case_bool_decide ];
          cbn [trace files record from_option id]).

Ltac staged_calls :=
  repeat (constructor; [cbn; auto |]); try constructor.

(** X11: whatever the oracle does, every call [button_callback] makes on a
    file (open, send, close, remove) is on the mp3 path its download looks
    for, an audio is only sent with the title computed from that path and
    the performer ["Music Bot"], and the files the handler leaves are the
    ones it found, or the ones the extraction left, or those less that
    mp3: the handler creates no file and deletes no other file. *)
Theorem button_callback_file_effects env data w w' r :
  button_callback env data w = (w', r) ->
  let url := payload_url data in
  (files w' = files w
   \/ files w' = extract_files env url (files w)
   \/ files w' = extract_files env url (files w) ∖ {[ staged_path env url ]})
  /\ exists evs,
       trace w' = (trace w ++ evs)%list
       /\ Forall (staged_file_call (staged_path env url)) evs.
Proof.
  cbv zeta. unfold staged_path.
  unfold button_callback, button_callback_try, button_callback_except,
    download_audio, download_audio_try, with_, file_open, os_remove,
    ydl_download, path_exists, logger_error, try_except, try_finally, bind,
    call, ret.
  destruct (String.eqb data "cancel");
    [|destruct (PyStr.startswith data "download_")];
    cbn [trace files record from_option id];
    run_cases;
    intros [= <- <-]; unfold record; cbn [trace files];
    (split; [auto|]);
    rewrite <- ?app_assoc; eexists; (split; [reflexivity|]);
    cbn [app]; staged_calls.
Qed.

Lemma button_callback_file_effects_witness :
  let run := button_callback env_ok
               (download_payload "https://youtu.be/x") empty_world in
  exists evs,
    trace (fst run) = (trace empty_world ++ evs)%list
    /\ Forall (staged_file_call "downloads/Believer.mp3") evs.
Proof.
  cbv zeta.
  apply (button_callback_file_effects env_ok
           (download_payload "https://youtu.be/x") empty_world
           (fst (button_callback env_ok
                   (download_payload "https://youtu.be/x") empty_world))
           (snd (button_callback env_ok
                   (download_payload "https://youtu.be/x") empty_world))).
  apply surjective_pairing.
Defined.

(** X12: whatever the oracle does, [download_audio] only creates the
    directory, builds and leaves the [YoutubeDL] object, extracts [url]
    with [download=True] and logs; the files it leaves are the ones it
    found or the ones the extraction left.  It makes no call to the chat
    platform and none on a file. *)
Theorem download_audio_effects env url w w' r :
  download_audio env url w = (w', r) ->
  (files w' = files w \/ files w' = extract_files env url (files w))
  /\ exists evs,
       trace w' = (trace w ++ evs)%list
       /\ Forall (download_audio_call url) evs.
Proof.
  unfold download_audio, download_audio_try, with_, ydl_download, path_exists,
    logger_error, try_except, try_finally, bind, call, ret.
  cbn [trace files record from_option id].
  run_cases;
    intros [= <- <-]; unfold record; cbn [trace files];
    (split; [auto|]);
    rewrite <- ?app_assoc; eexists; (split; [reflexivity|]);
    cbn [app]; staged_calls.
Qed.

Lemma download_audio_effects_witness :
  files (fst (download_audio env_convert_fails "https://youtu.be/x"
                empty_world))
  = files empty_world
  \/ files (fst (download_audio env_convert_fails "https://youtu.be/x"
                   empty_world))
     = extract_files env_convert_fails "https://youtu.be/x"
         (files empty_world).
Proof.
  apply (download_audio_effects env_convert_fails "https://youtu.be/x"
           empty_world
           (fst (download_audio env_convert_fails "https://youtu.be/x"
                   empty_world))
           (snd (download_audio env_convert_fails "https://youtu.be/x"
                   empty_world))).
  apply surjective_pairing.
Defined.

(** ** The name of the staged file and the title sent *)

Lemma before_last_app sep stem ext :
  PyStr.before_last sep ext = None ->
  PyStr.before_last sep (stem +:+ String sep ext) = Some stem.
Proof.
  intros Hext. induction stem as [|c s IH];
    rewrite ?append_cons, ?append_nil; cbn [PyStr.before_last].
  - rewrite Hext, Ascii.eqb_refl. reflexivity.
  - rewrite IH. reflexivity.
Qed.

Lemma append_assoc a b c : (a +:+ b) +:+ c = a +:+ (b +:+ c).
Proof.
  induction a as [|x a IH]; rewrite ?append_cons, ?append_nil;
    [reflexivity | rewrite IH; reflexivity].
Qed.

Lemma after_last_none_app sep a b :
  PyStr.after_last sep a = None -> PyStr.after_last sep b = None ->
  PyStr.after_last sep (a +:+ b) = None.
Proof.
  intros Ha Hb. induction a as [|c a IH];
    rewrite ?append_cons, ?append_nil; [exact Hb|].
  cbn [PyStr.after_last] in Ha |- *.
  destruct (PyStr.after_last sep a); [discriminate Ha|].
  rewrite (IH eq_refl). destruct (Ascii.eqb c sep); [discriminate Ha|reflexivity].
Qed.

(** X13: when yt-dlp prepared the name [stem.ext], with no dot in [ext],
    a path returned by [download_audio] is [stem.mp3]: only what follows
    the last dot of the whole name is replaced, dots inside [stem] stay. *)
Theorem staged_name_replaces_last_extension env url w w' f stem ext :
  prepare_filename env url = stem +:+ "." +:+ ext ->
  PyStr.before_last "." ext = None ->
  download_audio env url w = (w', Ok (Some f)) ->
  f = stem +:+ ".mp3".
Proof.
  intros Hname Hext Hdl.
  destruct (download_audio_returns_existing _ _ _ _ _ Hdl) as [-> _].
  rewrite Hname. unfold PyStr.rsplit1_head.
  change (stem +:+ "." +:+ ext) with (stem +:+ String "." ext).
  rewrite (before_last_app _ _ _ Hext). reflexivity.
Qed.

Lemma staged_name_replaces_last_extension_witness :
  "downloads/Believer.mp3" = "downloads/Believer" +:+ ".mp3".
Proof.
  apply (staged_name_replaces_last_extension env_ok "https://youtu.be/x"
           empty_world
           (fst (download_audio env_ok "https://youtu.be/x" empty_world))
           "downloads/Believer.mp3" "downloads/Believer" "webm");
    [reflexivity | reflexivity | vm_compute; reflexivity].
Defined.

(** X14: when the name yt-dlp prepared has no dot at all, nothing is cut:
    a path returned by [download_audio] is that name followed by [.mp3]. *)
Theorem staged_name_without_extension env url w w' f :
  PyStr.before_last "." (prepare_filename env url) = None ->
  download_audio env url w = (w', Ok (Some f)) ->
  f = prepare_filename env url +:+ ".mp3".
Proof.
  intros Hname Hdl.
  destruct (download_audio_returns_existing _ _ _ _ _ Hdl) as [-> _].
  unfold PyStr.rsplit1_head. rewrite Hname. reflexivity.
Qed.

Lemma staged_name_without_extension_witness :
  "downloads/song.mp3" = "downloads/song" +:+ ".mp3".
Proof.
  apply (staged_name_without_extension env_no_extension "https://youtu.be/x"
           empty_world
           (fst (download_audio env_no_extension "https://youtu.be/x"
                   empty_world))
           "downloads/song.mp3");
    [reflexivity | vm_compute; reflexivity].
Defined.

(** X15: when yt-dlp prepared [dir/T.ext], with no [/] and no [.mp3] in
    [T] and no dot in [ext], the title of the audio sent for a path
    returned by [download_audio] is [T], the title yt-dlp put in the
    name. *)
Theorem audio_title_is_video_title env url w w' f dir T ext :
  prepare_filename env url = dir +:+ "/" +:+ T +:+ "." +:+ ext ->
  PyStr.after_last "/" T = None ->
  PyStr.occurs ".mp3" T = false ->
  PyStr.before_last "." ext = None ->
  download_audio env url w = (w', Ok (Some f)) ->
  audio_title f = T.
Proof.
  intros Hname Hslash Hmp3 Hext Hdl.
  destruct (download_audio_returns_existing _ _ _ _ _ Hdl) as [-> _].
  rewrite Hname. unfold PyStr.rsplit1_head.
  replace (dir +:+ "/" +:+ T +:+ "." +:+ ext)
    with ((dir +:+ "/" +:+ T) +:+ String "." ext)
    by (rewrite !append_assoc; reflexivity).
  rewrite (before_last_app _ _ _ Hext). cbn [from_option id].
  rewrite !append_assoc.
  apply audio_title_plain_stem; [|exact Hmp3].
  apply after_last_none_app; [exact Hslash | reflexivity].
Qed.

Lemma audio_title_is_video_title_witness :
  audio_title "downloads/Believer.mp3" = "Believer".
Proof.
  apply (audio_title_is_video_title env_ok "https://youtu.be/x" empty_world
           (fst (download_audio env_ok "https://youtu.be/x" empty_world))
           "downloads/Believer.mp3" "downloads" "Believer" "webm");
    [reflexivity | reflexivity | reflexivity | reflexivity
    | vm_compute; reflexivity].
Defined.

(** ** The payload round trip, exactly *)

Lemma replace_scan_length old k s :
  (String.length (PyStr.replace_scan old "" k s) <= String.length s)%nat.
Proof.
  revert k. induction s as [|c s IH]; intros k; [reflexivity|].
  cbn [PyStr.replace_scan String.length]. destruct k as [|k].
  - destruct (String.prefix old (String c s)).
    + rewrite append_nil. specialize (IH (Nat.pred (String.length old))). lia.
    + cbn [String.length]. specialize (IH O). lia.
  - specialize (IH k). lia.
Qed.

Lemma replace_scan_shrinks old s :
  old <> "" -> PyStr.occurs old s = true ->
  (String.length (PyStr.replace_scan old "" O s) < String.length s)%nat.
Proof.
  intros Hold. induction s as [|c s IH]; intros Hocc.
  - destruct old; [congruence | discriminate Hocc].
  - cbn [PyStr.occurs] in Hocc. cbn [PyStr.replace_scan String.length].
    destruct (String.prefix old (String c s)).
    + rewrite append_nil.
      pose proof (replace_scan_length old (Nat.pred (String.length old)) s).
      lia.
    + cbn [orb] in Hocc. cbn [String.length]. specialize (IH Hocc). lia.
Qed.

(** X16: the payload built for a URL decodes to that URL if and only if
    ["download_"] does not occur in the URL. *)
Theorem payload_round_trip_iff u :
  payload_url (download_payload u) = u
  <-> PyStr.occurs "download_" u = false.
Proof.
  rewrite payload_url_download_payload. split.
  - intros H. destruct (PyStr.occurs "download_" u) eqn:Hocc; [|reflexivity].
    exfalso.
    pose proof (replace_scan_shrinks "download_" u ltac:(discriminate) Hocc)
      as Hlt.
    unfold PyStr.replace in H. rewrite H in Hlt. lia.
  - intros H. apply (replace_scan_absent "download_" "" u H).
Qed.

Lemma payload_round_trip_iff_witness :
  payload_url (download_payload "https://youtu.be/x") = "https://youtu.be/x".
Proof.
  apply (proj2 (payload_round_trip_iff "https://youtu.be/x")). reflexivity.
Defined.

Lemma send_failure_keeps_file_witness :
  exists e',
    button_callback_try env_send_fails "https://youtu.be/x" empty_world
    = ({| trace := trace (fst (download_audio env_send_fails
                                 "https://youtu.be/x" empty_world))
                   ++ [FileOpen "downloads/Believer.mp3";
                       BotSendAudio "downloads/Believer.mp3"
                         (audio_title "downloads/Believer.mp3") performer;
                       FileClose "downloads/Believer.mp3"];
          files := files (fst (download_audio env_send_fails
                                 "https://youtu.be/x" empty_world)) |},
       Raise e')
    /\ "downloads/Believer.mp3"
       ∈ files (fst (download_audio env_send_fails
                       "https://youtu.be/x" empty_world)).
Proof.
  apply (send_failure_keeps_file env_send_fails "https://youtu.be/x"
           empty_world
           (fst (download_audio env_send_fails "https://youtu.be/x"
                   empty_world))
           "downloads/Believer.mp3" (Exception "Timed out"));
    vm_compute; reflexivity.
Defined.

(** ** Where the exceptions that leave a handler come from *)

Ltac query_origin :=
  first
    [ left; reflexivity
    | right; left; split; reflexivity
    | right; right; split; [reflexivity|]; split; [reflexivity|];
      first [left; reflexivity | right; reflexivity] ].

(** X17: on a string payload, an exception leaves [button_callback] only
    as the exception of its last call, and that call is [query.answer()],
    or, for the payload ["cancel"], the edit to the cancellation notice,
    or, for a [download_] payload, the edit to the downloading notice or
    the edit to the generic error text in the [except] clause.  Whatever
    yt-dlp, the file system, [send_audio] and the success and failure
    edits raise is caught inside. *)
Theorem button_callback_raise_origin env data w w' e :
  button_callback env data w = (w', Raise e) ->
  exists h ev,
    trace w' = (h ++ [ev])%list
    /\ fails env h ev = Some e
    /\ (ev = QueryAnswer
        \/ (String.eqb data "cancel" = true
            /\ ev = QueryEditMessageText cancelled_text)
        \/ (String.eqb data "cancel" = false
            /\ PyStr.startswith data "download_" = true
            /\ (ev = QueryEditMessageText downloading_text
                \/ ev = QueryEditMessageText error_text))).
Proof.
  unfold button_callback, button_callback_try, button_callback_except,
    download_audio, download_audio_try, with_, file_open, os_remove,
    ydl_download, path_exists, logger_error, try_except, try_finally, bind,
    call, ret.
  destruct (String.eqb data "cancel") eqn:Hcancel;
    [|destruct (PyStr.startswith data "download_") eqn:Hprefix];
    cbn [trace files record from_option id];
    run_cases;
    (let H := fresh "H" in
     intros H; inversion H; subst; clear H;
     (unfold record; cbn [trace files];
      eexists _, _; (split; [reflexivity|]); (split; [eassumption|]);
      query_origin)).
Qed.

Lemma button_callback_raise_origin_witness :
  exists h ev,
    trace (fst (button_callback env_answer_fails "cancel" empty_world))
    = (h ++ [ev])%list
    /\ fails env_answer_fails h ev = Some (Exception "Query is too old")
    /\ (ev = QueryAnswer
        \/ (String.eqb "cancel" "cancel" = true
            /\ ev = QueryEditMessageText cancelled_text)
        \/ (String.eqb "cancel" "cancel" = false
            /\ PyStr.startswith "cancel" "download_" = true
            /\ (ev = QueryEditMessageText downloading_text
                \/ ev = QueryEditMessageText error_text))).
Proof.
  apply (button_callback_raise_origin env_answer_fails "cancel" empty_world).
  reflexivity.
Defined.

Ltac case_play :=
  match goal with
  | |- context [fails ?e ?h ?ev] => destruct (fails e h ev) eqn:?
  | |- context [search_entries ?e ?t] => destruct (search_entries e t) eqn:?
  | |- context [entry_title ?i] => destruct (entry_title i) eqn:?
  | |- context [entry_webpage_url ?i] => destruct (entry_webpage_url i) eqn:?
  | |- context [entry_duration ?i] =>
      destruct (entry_duration i) as [[]|] eqn:?
  end.

(** X18: an exception leaves [play] in one of three ways only.  On an
    update without a message it is the [AttributeError] of
    [update.message.reply_text], raised before any call.  Or it is the
    exception of the last call, and that call is a reply, the deletion or
    the edit of the searching notice, or the construction of the
    [YoutubeDL] object, which [search_youtube] does before its [try].  Or
    the search has returned a first entry whose duration is [None] or a
    [float]: [extract_info] was the last call and the [TypeError] or
    [ValueError] of lines 112-114 leaves [play].  An exception of
    [extract_info], an empty search and a missing title or URL never leave
    [play]. *)
Theorem play_raise_origin env message args w w' e :
  play_update env message args w = (w', Raise e) ->
  (message = None /\ w' = w /\ e = attribute_error "reply_text")
  \/ (exists h ev,
        trace w' = (h ++ [ev])%list
        /\ (message_call ev = true \/ ev = YdlNew QUIET_OPTIONS)
        /\ fails env h ev = Some e)
  \/ (exists info rest,
        search_entries env ("ytsearch:" +:+ PyStr.join " " args)
        = info :: rest
        /\ (entry_duration info = Some PyNone /\ e = type_error_none
            \/ entry_duration info = Some PyFloat /\ e = value_error_float)
        /\ last (trace w')
           = Some (YdlExtractInfo ("ytsearch:" +:+ PyStr.join " " args)
                     false)).
Proof.
  destruct message as [m|];
    [|intros [= <- <-]; left; repeat split; reflexivity].
  cbn [play_update]. rewrite play_args_join.
  generalize (PyStr.join " " args). intros [|c q'].
  - change (play env [""]) with (call env (MessageReplyText play_prompt None)).
    unfold call. case_fails; intros H; inversion H; subst; clear H.
    right. left. eexists _, _. split; [reflexivity|].
    split; [left; reflexivity | eassumption].
  - rewrite play_nonempty. cbv zeta.
    unfold search_youtube, ydl_search, format_duration, try_except, bind,
      call, first_entry, getitem, logger_error, ret, raise.
    repeat (case_play;
            cbn [trace files record duration title from_option id]);
      (let H := fresh "H" in
       intros H; inversion H; subst; clear H;
       (right;
        first
          [ left; unfold record; cbn [trace files];
            eexists _, _; (split; [reflexivity|]); (split; [|eassumption]);
            first [left; reflexivity | right; reflexivity]
          | right; eexists _, _; (split; [reflexivity|]);
            (split; [first [ left; split; [assumption | reflexivity]
                           | right; split; [assumption | reflexivity] ]|]);
            unfold record; cbn [trace files]; apply last_snoc ])).
Qed.

Lemma play_raise_origin_witness :
  (Some {| message_text := Some "/play believer" |} = None
   /\ fst (play_update env_no_ydl
             (Some {| message_text := Some "/play believer" |})
             ["believer"] empty_world) = empty_world
   /\ Exception "no yt-dlp" = attribute_error "reply_text")
  \/ (exists h ev,
        trace (fst (play_update env_no_ydl
                      (Some {| message_text := Some "/play believer" |})
                      ["believer"] empty_world)) = (h ++ [ev])%list
        /\ (message_call ev = true \/ ev = YdlNew QUIET_OPTIONS)
        /\ fails env_no_ydl h ev = Some (Exception "no yt-dlp"))
  \/ (exists info rest,
        search_entries env_no_ydl ("ytsearch:" +:+ PyStr.join " " ["believer"])
        = info :: rest
        /\ (entry_duration info = Some PyNone
            /\ Exception "no yt-dlp" = type_error_none
            \/ entry_duration info = Some PyFloat
               /\ Exception "no yt-dlp" = value_error_float)
        /\ last (trace (fst (play_update env_no_ydl
                               (Some {| message_text := Some "/play believer" |})
                               ["believer"] empty_world)))
           = Some (YdlExtractInfo
                     ("ytsearch:" +:+ PyStr.join " " ["believer"]) false)).
Proof.
  apply (play_raise_origin env_no_ydl
           (Some {| message_text := Some "/play believer" |})
           ["believer"] empty_world).
  reflexivity.
Defined.

(** ** Start-up *)

(** X20: loading the module yields a token exactly when [BOT_TOKEN] is
    set to a non-empty string, and the token is that string; when it is
    unset or set to the empty string, loading raises. *)
Theorem load_bot_token_ok environ t :
  load_bot_token environ = Ok t
  <-> (environ !! "BOT_TOKEN" = Some t /\ t <> "").
Proof.
  unfold load_bot_token.
  destruct (environ !! "BOT_TOKEN") as [[|c s]|]; cbn; split.
  - discriminate.
  - intros [[= <-] H]. congruence.
  - intros [= <-]. split; [reflexivity | discriminate].
  - intros [[= <-] _]. reflexivity.
  - discriminate.
  - intros [H _]. discriminate H.
Qed.

Lemma load_bot_token_ok_witness :
  load_bot_token (<["BOT_TOKEN" := "123:abc"]> ∅) = Ok "123:abc"
  /\ load_bot_token (<["BOT_TOKEN" := ""]> ∅)
     = Raise (Exception "No BOT_TOKEN found in environment variables")
  /\ load_bot_token ∅
     = Raise (Exception "No BOT_TOKEN found in environment variables").
Proof.
  split; [|split; reflexivity].
  apply (proj2 (load_bot_token_ok (<["BOT_TOKEN" := "123:abc"]> ∅) "123:abc")).
  split; [reflexivity | discriminate].
Defined.
